(** * Load-test drivers of the order service: a shallow embedding

    The development follows the two locust files of the repository:

    - [locust/locustfile.py]            (class [OrderServiceUser]);
    - [locust/locustfile-scenarios.py]  (class [ResilienceTestUser], its
      scenario subclasses, and the two load shapes).

    Python objects are modelled as the code uses them: JSON values as a
    tagged union, the class-level [order_ids] lists as cells of a store
    that user instances reach through attribute lookup, exceptions and the
    random generator through a small state-and-error monad, and the run
    time of a load shape as a binary64 float. *)

From Stdlib Require Import ZArith Lia Bool.
From Stdlib Require Import Uint63 PrimFloat FloatOps FloatAxioms SpecFloat.
From stdpp Require Import gmap strings list.

(* Decimal literals such as [999.99] denote the nearest binary64 value, as
   they do in Python. *)
#[local] Set Warnings "-inexact-float".

#[local] Open Scope string_scope.
#[local] Open Scope list_scope.
#[local] Open Scope Z_scope.

(** ** Python values *)

Module Py.

(** The values [json.loads] can return (object, array, string, integer,
    real, boolean, null), which is all the code ever stores or tests. *)
#[warnings="-register-all"]
Inductive pyval : Type :=
| PNone
| PBool (b : bool)
| PInt (z : Z)
| PFloat (f : float)
| PStr (s : string)
| PList (l : list pyval)
| PDict (d : gmap string pyval).

(** Exception classes raised by the modelled code.  All of them derive from
    [Exception], so both [except:] and [except Exception] catch them. *)
Inductive exn : Type :=
| JSONDecodeError
| UnicodeDecodeError
| TypeError
| AttributeError
| ValueError
| IndexError
| RecursionError.

(** [bool(v)]: the truth value Python gives to [if v:]. *)
Definition truthy (v : pyval) : bool :=
  match v with
  | PNone => false
  | PBool b => b
  | PInt z => negb (z =? 0)
  | PFloat f => negb (PrimFloat.eqb f 0%float)
  | PStr s => negb (String.eqb s "")
  | PList l => match l with [] => false | _ => true end
  | PDict d => negb (bool_decide (d = ∅))
  end.

(** [v.get(k)]: only a dict has the method; a missing key gives [None]. *)
Definition get (v : pyval) (k : string) : exn + pyval :=
  match v with
  | PDict d => inr (default PNone (d !! k))
  | _ => inl AttributeError
  end.

(** An f-string, kept as its parts: literal text and formatted values. *)
Inductive fpart : Type :=
| Lit (s : string)
| Fmt (v : pyval)
| FmtExn (e : exn).

Definition fstring : Type := list fpart.

End Py.

Import Py.

(** ** The interpreter state and its monad *)

Definition loc : Type := nat.

(** One line item of an order payload.  Quantities are Python ints, prices
    are ints or floats. *)
Inductive pynum : Type :=
| NInt (z : Z)
| NFloat (f : float).

Record item : Type := Item {
  item_id : string;
  quantity : Z;
  price : pynum
}.

(** The JSON body [{"items": [...]}]. *)
Record payload : Type := Payload { payload_items : list item }.

(** What a task does to the outside world, in order: the requests it issues
    and the calls to [response.success()] and [response.failure(msg)]. *)
Inductive event : Type :=
| EPost (path : string) (body : payload) (name : string)
| EGet (path : fstring) (name : string)
| ESuccess
| EFailure (msg : fstring).

(** [rng] is the future of the random generator (its raw draws), [heap]
    holds the list objects, [trace] the events so far, oldest first. *)
Record state : Type := State {
  rng : list nat;
  heap : gmap loc (list pyval);
  trace : list event
}.

Definition M (A : Type) : Type := state -> (exn + A) * state.

Definition ret {A} (a : A) : M A := fun s => (inr a, s).

Definition bind {A B} (m : M A) (k : A -> M B) : M B :=
  fun s => match m s with
           | (inr a, s') => k a s'
           | (inl e, s') => (inl e, s')
           end.

Definition raise {A} (e : exn) : M A := fun s => (inl e, s).

(** [try: body except ...: handler]: the effects of the body up to the
    exception stay. *)
Definition try_except {A} (body : M A) (handler : exn -> M A) : M A :=
  fun s => match body s with
           | (inr a, s') => (inr a, s')
           | (inl e, s') => handler e s'
           end.

Definition lift {A} (r : exn + A) : M A :=
  match r with inr a => ret a | inl e => raise e end.

Declare Scope py_scope.
Delimit Scope py_scope with py.
Notation "x <- m ;; k" := (bind m (fun x => k))
  (at level 100, m at next level, right associativity) : py_scope.
Notation "m ;;; k" := (bind m (fun _ => k))
  (at level 100, right associativity) : py_scope.
#[local] Open Scope py_scope.

Definition emit (e : event) : M unit :=
  fun s => (inr tt, State (rng s) (heap s) (trace s ++ [e])).

(** Reading a list object, its length, and [list.append]. *)
Definition read_list (l : loc) : M (list pyval) :=
  fun s => (inr (heap s !!! l), s).

Definition append (l : loc) (v : pyval) : M unit :=
  fun s => (inr tt, State (rng s) (<[l := (heap s !!! l) ++ [v]]> (heap s)) (trace s)).

(** ** The [random] module *)

Module Random.

(** [_randbelow(n)], for [n > 0]: a number below [n], here the next raw
    draw reduced modulo [n]. *)
Definition randbelow (n : nat) : M nat :=
  fun s => match rng s with
           | [] => (inr 0%nat, s)
           | r :: rs => (inr (r mod n)%nat, State rs (heap s) (trace s))
           end.

(** [randint(a, b)] is [a + _randbelow(b - a + 1)]. *)
Definition randint (a b : Z) : M Z :=
  r <- randbelow (Z.to_nat (b - a + 1)) ;;
  ret (a + Z.of_nat r).

(** [choice(seq)] is [seq[_randbelow(len(seq))]]; an empty sequence raises
    [IndexError]. *)
Definition choice {A} (seq : list A) : M A :=
  match seq with
  | [] => raise IndexError
  | _ =>
      j <- randbelow (length seq) ;;
      match seq !! j with
      | Some x => ret x
      | None => raise IndexError
      end
  end.

(** The selection loop of [sample] for a population of at most 21
    elements: [pool] holds the elements not selected yet at its first [n]
    positions; the chosen one is replaced by the last of them. *)
Fixpoint sample_loop {A} (pool : list A) (n k : nat) : M (list A) :=
  match k with
  | O => ret []
  | S k' =>
      j <- randbelow n ;;
      match pool !! j, pool !! (n - 1)%nat with
      | Some x, Some y =>
          rest <- sample_loop (<[j := y]> pool) (n - 1)%nat k' ;;
          ret (x :: rest)
      | _, _ => raise IndexError
      end
  end.

(** [sample(population, k)]: [ValueError] unless [0 <= k <= n]. *)
Definition sample {A} (population : list A) (k : Z) : M (list A) :=
  let n := length population in
  if negb ((0 <=? k) && (k <=? Z.of_nat n)) then raise ValueError
  else sample_loop population n (Z.to_nat k).

End Random.

(** ** Classes, instances and attribute lookup *)

Module Cls.

(** The user classes of the two files. *)
Inductive cls : Type :=
| OrderServiceUser
| ResilienceTestUser
| NormalOperationUser
| FailFastUser
| CircuitBreakerInventoryUser
| CircuitBreakerPaymentUser
| BulkheadUser
| CombinedChaosUser
| MixedWorkloadUser.

(** The base class named in the class statement, when it is one of the
    repository's own ([None] stands for the library's [FastHttpUser]). *)
Definition base (c : cls) : option cls :=
  match c with
  | OrderServiceUser | ResilienceTestUser => None
  | _ => Some ResilienceTestUser
  end.

(** The list objects created by the two class bodies ([order_ids = []]). *)
Definition order_ids_OrderServiceUser : loc := 0%nat.
Definition order_ids_ResilienceTestUser : loc := 1%nat.

(** The bindings of a class body that hold a mutable list.  Only the two
    base classes bind [order_ids]; no subclass rebinds it. *)
Definition class_dict (c : cls) (attr : string) : option loc :=
  if String.eqb attr "order_ids" then
    match c with
    | OrderServiceUser => Some order_ids_OrderServiceUser
    | ResilienceTestUser => Some order_ids_ResilienceTestUser
    | _ => None
    end
  else None.

(** Lookup along the method resolution order: the class, then its base. *)
Definition class_getattr (c : cls) (attr : string) : option loc :=
  match class_dict c attr with
  | Some l => Some l
  | None =>
      match base c with
      | Some b => class_dict b attr
      | None => None
      end
  end.

End Cls.

(** A simulated-user instance: its identity, its class and its own
    [__dict__]. *)
Record user : Type := User {
  user_id : nat;
  user_class : Cls.cls;
  user_dict : gmap string loc
}.

(** Instantiation.  No class of the repository defines [__init__], and no
    method assigns [self.order_ids], so the instance dictionary never binds
    that name. *)
Definition new_user (id : nat) (c : Cls.cls) : user := User id c ∅.

(** [self.attr]: the instance dictionary first, then the class;
    [AttributeError] when neither binds the name. *)
Definition resolve (self : user) (attr : string) : exn + loc :=
  match user_dict self !! attr with
  | Some l => inr l
  | None =>
      match Cls.class_getattr (user_class self) attr with
      | Some l => inr l
      | None => inl AttributeError
      end
  end.

Definition getattr (self : user) (attr : string) : M loc := lift (resolve self attr).

(** [len(self.order_ids)] and [self.order_ids.append(v)]. *)
Definition len_order_ids (self : user) : M Z :=
  ids <- getattr self "order_ids" ;;
  l <- read_list ids ;;
  ret (Z.of_nat (length l)).

Definition append_order_ids (self : user) (v : pyval) : M unit :=
  ids <- getattr self "order_ids" ;;
  append ids v.

(** The store once the class bodies have run. *)
Definition initial_heap : gmap loc (list pyval) :=
  <[Cls.order_ids_OrderServiceUser := []]>
    (<[Cls.order_ids_ResilienceTestUser := []]> ∅).

Definition initial_state (draws : list nat) : state := State draws initial_heap [].

(** The response handed to the body of
    [with self.client.post(..., catch_response=True) as response]:
    its status code and what [response.json()] does. *)
Record response : Type := Response {
  status_code : Z;
  json : exn + pyval
}.

(** ** [locustfile.py] *)

Module OrderServiceUser.

Definition items : list item :=
  [ Item "item-1" 1 (NFloat 999.99%float);
    Item "item-2" 2 (NFloat 29.99%float);
    Item "item-3" 1 (NFloat 79.99%float);
    Item "item-4" 1 (NFloat 299.99%float);
    Item "item-5" 3 (NFloat 149.99%float) ].

Definition create_order (self : user) (resp : response) : M unit :=
  num_items <- Random.randint 1 3 ;;
  selected_items <- Random.sample items num_items ;;
  let body := Payload selected_items in
  emit (EPost "/order/create" body "/order/create") ;;;
  if status_code resp =? 200 then
    try_except
      (order_data <- lift (json resp) ;;
       order_id <- lift (Py.get order_data "order_id") ;;
       (if truthy order_id then
          n <- len_order_ids self ;;
          if n <? 100 then append_order_ids self order_id else ret tt
        else ret tt) ;;;
       emit ESuccess)
      (fun _ => emit (EFailure [Lit "Failed to parse response"]))
  else
    emit (EFailure [Lit "Got status "; Fmt (PInt (status_code resp))]).

Definition get_order (self : user) : M unit :=
  ids <- getattr self "order_ids" ;;
  l <- read_list ids ;;
  if truthy (PList l) then
    ids' <- getattr self "order_ids" ;;
    l' <- read_list ids' ;;
    order_id <- Random.choice l' ;;
    emit (EGet [Lit "/order/"; Fmt order_id] "/order/:orderId")
  else
    emit (EGet [Lit "/order/dummy-order-id"] "/order/:orderId").

End OrderServiceUser.

(** ** [locustfile-scenarios.py] *)

Module ResilienceTestUser.

Definition items : list item :=
  [ Item "item-1" 1 (NFloat 999.99%float);
    Item "item-2" 2 (NFloat 29.99%float);
    Item "item-3" 1 (NFloat 79.99%float);
    Item "item-4" 1 (NFloat 299.99%float);
    Item "item-5" 3 (NFloat 149.99%float) ].

Definition create_valid_order (self : user) (num_items : option Z)
    (resp : response) : M unit :=
  num_items <- match num_items with
               | None => Random.randint 1 3
               | Some k => ret k
               end ;;
  selected_items <-
    Random.sample items (Z.min num_items (Z.of_nat (length items))) ;;
  let body := Payload selected_items in
  emit (EPost "/order/create" body "/order/create") ;;;
  if status_code resp =? 200 then
    try_except
      (order_data <- lift (json resp) ;;
       order_id <- lift (Py.get order_data "order_id") ;;
       room <- (if truthy order_id then
                  n <- len_order_ids self ;; ret (n <? 100)
                else ret false) ;;
       (if room : bool then append_order_ids self order_id else ret tt) ;;;
       emit ESuccess)
      (fun e => emit (EFailure [Lit "Failed to parse response: "; FmtExn e]))
  else if 500 <=? status_code resp then
    emit ESuccess
  else
    emit (EFailure [Lit "Got status "; Fmt (PInt (status_code resp))]).

Definition get_order_details (self : user) : M unit :=
  ids <- getattr self "order_ids" ;;
  l <- read_list ids ;;
  if truthy (PList l) then
    ids' <- getattr self "order_ids" ;;
    l' <- read_list ids' ;;
    order_id <- Random.choice l' ;;
    emit (EGet [Lit "/order/"; Fmt order_id] "/order/:orderId")
  else
    emit (EGet [Lit "/order/dummy-order-id"] "/order/:orderId").

End ResilienceTestUser.

Module FailFastUser.

(** The four tasks share one shape: post a payload, expect a 400. *)
Definition expect_400 (body : payload) (name : string) (resp : response) : M unit :=
  emit (EPost "/order/create" body name) ;;;
  if status_code resp =? 400 then emit ESuccess
  else emit (EFailure [Lit "Expected 400, got "; Fmt (PInt (status_code resp))]).

Definition empty_order (self : user) (resp : response) : M unit :=
  expect_400 (Payload []) "/order/create [empty]" resp.

Definition invalid_quantity (self : user) (resp : response) : M unit :=
  expect_400 (Payload [Item "item-1" 0 (NFloat 999.99%float)])
    "/order/create [invalid quantity]" resp.

Definition invalid_price (self : user) (resp : response) : M unit :=
  expect_400 (Payload [Item "item-1" 1 (NInt (-10))])
    "/order/create [invalid price]" resp.

Definition missing_item_id (self : user) (resp : response) : M unit :=
  expect_400 (Payload [Item "" 1 (NFloat 99.99%float)])
    "/order/create [missing item_id]" resp.

(** The task set of the class, with the weights given to [@task]. *)
Definition tasks : list (nat * (user -> response -> M unit)) :=
  [ (3%nat, empty_order); (3%nat, invalid_quantity);
    (3%nat, invalid_price); (1%nat, missing_item_id) ].

End FailFastUser.

Module MixedWorkloadUser.

(** The task of this class is itself named [create_valid_order] and its
    body is [self.create_valid_order()], which resolves to the task again:
    the call nests until the interpreter's recursion limit, of which
    [depth] frames are left. *)
Fixpoint create_valid_order (depth : nat) (self : user) : M unit :=
  match depth with
  | O => raise RecursionError
  | S d => create_valid_order d self
  end.

(** A plain [self.client.post] without [catch_response]: the task sets no
    mark of its own. *)
Definition create_invalid_order (self : user) : M unit :=
  let invalid_payloads :=
    [ Payload [];
      Payload [Item "item-1" 0 (NFloat 999.99%float)];
      Payload [Item "item-1" 1 (NInt (-10))] ] in
  body <- Random.choice invalid_payloads ;;
  emit (EPost "/order/create" body "/order/create [invalid]").

End MixedWorkloadUser.

(** The scenario classes that do not shadow the helper: in their tasks
    [self.create_valid_order()] resolves to the method of
    [ResilienceTestUser], called without [num_items]. *)
Module NormalOperationUser.

Definition create_order (self : user) (resp : response) : M unit :=
  ResilienceTestUser.create_valid_order self None resp.

End NormalOperationUser.

Module CircuitBreakerInventoryUser.

Definition create_order_with_failures (self : user) (resp : response) : M unit :=
  ResilienceTestUser.create_valid_order self None resp.

End CircuitBreakerInventoryUser.

Module CircuitBreakerPaymentUser.

Definition create_order_with_failures (self : user) (resp : response) : M unit :=
  ResilienceTestUser.create_valid_order self None resp.

End CircuitBreakerPaymentUser.

Module BulkheadUser.

Definition create_order_concurrent (self : user) (resp : response) : M unit :=
  ResilienceTestUser.create_valid_order self None resp.

End BulkheadUser.

Module CombinedChaosUser.

Definition create_order_with_all_chaos (self : user) (resp : response) : M unit :=
  ResilienceTestUser.create_valid_order self None resp.

End CombinedChaosUser.

(** The order-creating tasks of the scenario classes, with the weights
    given to [@task]. *)
Definition scenario_create_tasks : list (nat * (user -> response -> M unit)) :=
  [ (10%nat, NormalOperationUser.create_order);
    (8%nat, CircuitBreakerInventoryUser.create_order_with_failures);
    (8%nat, CircuitBreakerPaymentUser.create_order_with_failures);
    (10%nat, BulkheadUser.create_order_concurrent);
    (10%nat, CombinedChaosUser.create_order_with_all_chaos) ].

(** ** Load shapes *)

Record stage : Type := Stage {
  duration : Z;
  users : Z;
  spawn_rate : Z
}.

(** The float a small Python int compares as (exact below [2^53]). *)
Definition float_of_int (z : Z) : float := PrimFloat.of_uint63 (Uint63.of_Z z).

(** [for stage in stages: if run_time < stage["duration"]: return ...],
    then [return None]. *)
Fixpoint tick_loop (run_time : float) (stages : list stage) : option (Z * Z) :=
  match stages with
  | [] => None
  | st :: rest =>
      if PrimFloat.ltb run_time (float_of_int (duration st))
      then Some (users st, spawn_rate st)
      else tick_loop run_time rest
  end.

Module StepLoadShape.

Definition stages : list stage :=
  [ Stage 60 10 2; Stage 120 25 3; Stage 180 50 5; Stage 240 75 5; Stage 300 100 5 ].

Definition tick (run_time : float) : option (Z * Z) := tick_loop run_time stages.

End StepLoadShape.

Module SpikeLoadShape.

Definition stages : list stage :=
  [ Stage 30 10 2; Stage 60 100 20; Stage 90 10 10; Stage 120 100 20; Stage 150 10 10 ].

Definition tick (run_time : float) : option (Z * Z) := tick_loop run_time stages.

End SpikeLoadShape.

(** ** Monitoring and chaos control: a journal of what is logged and sent *)

(** [check_circuit_status] and the helpers of [ChaosController] neither
    read the cached lists nor draw random numbers; they subscript parsed
    JSON, write to the logger and post to the chaos endpoints.  They run in
    a monad that only keeps a journal. *)
Module Journal.

(** The exceptions of the first part, [KeyError] from subscripting a dict,
    and the ones [requests.post] raises when no reply arrives.  All derive
    from [Exception]. *)
Inductive error : Type :=
| Raised (e : exn)
| KeyError (key : string)
| ConnectionError
| Timeout.

(** An f-string or plain message, kept as its parts. *)
Inductive part : Type :=
| Text (s : string)
| Value (v : pyval)
| Exc (e : error).

Definition text : Type := list part.

Inductive level : Type := INFO | ERROR.

Inductive entry : Type :=
| ClientGet (path name : string)
| RequestsPost (url : string) (timeout : Z)
| Success
| Failure (msg : text)
| Log (lvl : level) (msg : text).

Definition W (A : Type) : Type := list entry -> (error + A) * list entry.

Definition ret {A} (a : A) : W A := fun j => (inr a, j).

Definition bind {A B} (m : W A) (k : A -> W B) : W B :=
  fun j => match m j with
           | (inr a, j') => k a j'
           | (inl e, j') => (inl e, j')
           end.

Definition raise {A} (e : error) : W A := fun j => (inl e, j).

Definition try_except {A} (body : W A) (handler : error -> W A) : W A :=
  fun j => match body j with
           | (inr a, j') => (inr a, j')
           | (inl e, j') => handler e j'
           end.

Definition tell (e : entry) : W unit := fun j => (inr tt, j ++ [e]).

Definition lift {A} (r : error + A) : W A :=
  match r with inr a => ret a | inl e => raise e end.

(** The outcome of [response.json()], as an outcome of this monad. *)
Definition lift_exn {A} (r : exn + A) : W A :=
  match r with inr a => ret a | inl e => raise (Raised e) end.

(** [v[k]] for a string [k]: a dict gives the value or [KeyError]; a list
    or a string wants integer indices and the other values cannot be
    subscripted, [TypeError] either way. *)
Definition subscript (v : pyval) (k : string) : error + pyval :=
  match v with
  | PDict d =>
      match d !! k with
      | Some x => inr x
      | None => inl (KeyError k)
      end
  | _ => inl (Raised TypeError)
  end.

Declare Scope journal_scope.
Delimit Scope journal_scope with journal.
Notation "x <- m ;; k" := (bind m (fun x => k))
  (at level 100, m at next level, right associativity) : journal_scope.
Notation "m ;;; k" := (bind m (fun _ => k))
  (at level 100, right associativity) : journal_scope.

End Journal.

Module Monitoring.

Import Journal.
#[local] Open Scope journal_scope.

(** [ResilienceTestUser.check_circuit_status].  A response that is not a
    200 gets no mark from the method. *)
Definition check_circuit_status (self : user) (resp : response) : W unit :=
  tell (ClientGet "/order/circuit-status" "/order/circuit-status") ;;;
  if status_code resp =? 200 then
    try_except
      (status <- lift_exn (json resp) ;;
       inventory_circuit <- lift (subscript status "inventory_circuit") ;;
       inventory_state <- lift (subscript inventory_circuit "state") ;;
       payment_circuit <- lift (subscript status "payment_circuit") ;;
       payment_state <- lift (subscript payment_circuit "state") ;;
       tell (Log INFO [Text "Circuit Status - Inventory: "; Value inventory_state;
                       Text ", Payment: "; Value payment_state]) ;;;
       tell Success)
      (fun e => tell (Failure [Text "Failed to parse circuit status: "; Exc e]))
  else ret tt.

End Monitoring.

Module ChaosController.

Import Journal.
#[local] Open Scope journal_scope.

Definition INVENTORY_SERVICE : string := "http://localhost:8081".
Definition PAYMENT_SERVICE : string := "http://localhost:8082".

(** What comes back from [requests.post]: an exception when no reply
    arrives in time, a response otherwise, whatever its status code. *)
Inductive reply : Type :=
| NoReply (e : error)
| Reply (resp : response).

Definition requests_post (url : string) (timeout : Z) (r : reply) : W response :=
  tell (RequestsPost url timeout) ;;;
  match r with
  | NoReply e => raise e
  | Reply resp => ret resp
  end.

(** The six switches share one shape: post, log the decoded body at INFO,
    and log any exception at ERROR. *)
Definition switch (url done failed : string) (r : reply) : W unit :=
  try_except
    (resp <- requests_post url 5 r ;;
     body <- lift_exn (json resp) ;;
     tell (Log INFO [Text done; Value body]))
    (fun e => tell (Log ERROR [Text failed; Exc e])).

Definition enable_inventory_chaos (r : reply) : W unit :=
  switch (INVENTORY_SERVICE +:+ "/chaos/inventory/enable")
    "âœ… Inventory chaos enabled: " "âŒ Failed to enable inventory chaos: " r.

Definition disable_inventory_chaos (r : reply) : W unit :=
  switch (INVENTORY_SERVICE +:+ "/chaos/inventory/disable")
    "âœ… Inventory chaos disabled: " "âŒ Failed to disable inventory chaos: " r.

Definition enable_inventory_slow (r : reply) : W unit :=
  switch (INVENTORY_SERVICE +:+ "/chaos/inventory/slow")
    "âœ… Inventory slow mode enabled: " "âŒ Failed to enable inventory slow mode: " r.

Definition enable_payment_chaos (r : reply) : W unit :=
  switch (PAYMENT_SERVICE +:+ "/chaos/payment/enable")
    "âœ… Payment chaos enabled: " "âŒ Failed to enable payment chaos: " r.

Definition disable_payment_chaos (r : reply) : W unit :=
  switch (PAYMENT_SERVICE +:+ "/chaos/payment/disable")
    "âœ… Payment chaos disabled: " "âŒ Failed to disable payment chaos: " r.

Definition enable_payment_slow (r : reply) : W unit :=
  switch (PAYMENT_SERVICE +:+ "/chaos/payment/slow")
    "âœ… Payment slow mode enabled: " "âŒ Failed to enable payment slow mode: " r.

Definition disable_all_chaos (r1 r2 : reply) : W unit :=
  tell (Log INFO [Text "ðŸ”„ Disabling all chaos modes..."]) ;;;
  disable_inventory_chaos r1 ;;;
  disable_payment_chaos r2 ;;;
  tell (Log INFO [Text "âœ… All chaos modes disabled"]).

Definition enable_combined_chaos (r1 r2 r3 r4 : reply) : W unit :=
  tell (Log INFO [Text "ðŸ”„ Enabling combined chaos..."]) ;;;
  enable_inventory_chaos r1 ;;;
  enable_inventory_slow r2 ;;;
  enable_payment_chaos r3 ;;;
  enable_payment_slow r4 ;;;
  tell (Log INFO [Text "âœ… Combined chaos enabled"]).

(** The six switches, each with the endpoint it posts to. *)
Definition switches : list (string * (reply -> W unit)) :=
  [ ("http://localhost:8081/chaos/inventory/enable", enable_inventory_chaos);
    ("http://localhost:8081/chaos/inventory/disable", disable_inventory_chaos);
    ("http://localhost:8081/chaos/inventory/slow", enable_inventory_slow);
    ("http://localhost:8082/chaos/payment/enable", enable_payment_chaos);
    ("http://localhost:8082/chaos/payment/disable", disable_payment_chaos);
    ("http://localhost:8082/chaos/payment/slow", enable_payment_slow) ].

End ChaosController.

(** ** Running tasks one after the other *)

(** A task invocation by the runner, with the response the server gives to
    its request where the task looks at one. *)
Inductive call : Type :=
| Call_create_order (self : user) (resp : response)
| Call_get_order (self : user)
| Call_create_valid_order (self : user) (num_items : option Z) (resp : response)
| Call_get_order_details (self : user)
| Call_mixed_create_valid_order (depth : nat) (self : user).

Definition run_call (c : call) : M unit :=
  match c with
  | Call_create_order self resp => OrderServiceUser.create_order self resp
  | Call_get_order self => OrderServiceUser.get_order self
  | Call_create_valid_order self k resp =>
      ResilienceTestUser.create_valid_order self k resp
  | Call_get_order_details self => ResilienceTestUser.get_order_details self
  | Call_mixed_create_valid_order depth self =>
      MixedWorkloadUser.create_valid_order depth self
  end.

(** The runner logs an exception that escapes a task and goes on with the
    next one; the state the task left behind stays.  Greenlets switch only
    while a request is in flight, so the part of a call that looks at the
    response and updates the store runs without interruption, and the
    store evolves call by call. *)
Definition run_calls (cs : list call) (s : state) : state :=
  fold_left (fun s c => snd (run_call c s)) cs s.

(** The responses handed to the order-creating calls of a run. *)
Definition create_response (c : call) : option response :=
  match c with
  | Call_create_order _ resp | Call_create_valid_order _ _ resp => Some resp
  | _ => None
  end.

(** ** Observations used in the statements *)

(** The list an instance sees as [self.order_ids]. *)
Definition order_ids_of (self : user) (s : state) : exn + list pyval :=
  fst ((ids <- getattr self "order_ids" ;; read_list ids) s).

Definition is_mark (e : event) : bool :=
  match e with ESuccess | EFailure _ => true | _ => false end.

(** The success and failure marks of a trace, in order. *)
Definition marks (tr : list event) : list event := List.filter is_mark tr.

(** The bodies posted, in order. *)
Fixpoint posted (tr : list event) : list payload :=
  match tr with
  | [] => []
  | EPost _ body _ :: tr' => body :: posted tr'
  | _ :: tr' => posted tr'
  end.

(** The validity rules the order service applies to a line item. *)
Definition num_positive (x : pynum) : bool :=
  match x with
  | NInt z => 0 <? z
  | NFloat f => PrimFloat.ltb 0%float f
  end.

Definition valid_item (it : item) : bool :=
  negb (String.eqb (item_id it) "") && (0 <? quantity it) && num_positive (price it).

(** The events a run added to the trace: those of [s'] past the ones
    already in [s]. *)
Definition events_since (s s' : state) : list event :=
  drop (length (trace s)) (trace s').

(** The order service accepts a body with at least one line item, all of
    them valid. *)
Definition valid_payload (body : payload) : bool :=
  match payload_items body with
  | [] => false
  | its => forallb valid_item its
  end.

(** What a retrieval method is expected to do: one GET, for an identifier
    of the cached list when there is one and for the dummy identifier
    otherwise, the store left as it was. *)
Definition retrieves_from_cache (get : user -> M unit) : Prop :=
  forall (self : user) (s : state),
    exists ids,
      order_ids_of self s = inr ids /\
      fst (get self s) = inr tt /\
      heap (snd (get self s)) = heap s /\
      order_ids_of self (snd (get self s)) = inr ids /\
      (ids = [] ->
       events_since s (snd (get self s)) =
         [EGet [Lit "/order/dummy-order-id"] "/order/:orderId"]) /\
      (ids <> [] ->
       exists order_id,
         order_id ∈ ids /\
         events_since s (snd (get self s)) =
           [EGet [Lit "/order/"; Fmt order_id] "/order/:orderId"]).

(** The precondition under which [create_valid_order] gets as far as
    sending a request: [num_items] left at its default, or not negative. *)
Definition sends_request (num_items : option Z) : Prop :=
  match num_items with
  | Some n => 0 <= n
  | None => True
  end.

(** A computation that only consumes random draws, and whose result
    satisfies [P]. *)
Definition draws_only {B} (m : M B) (P : B -> Prop) : Prop :=
  forall s, exists b s',
    m s = (inr b, s') /\ heap s' = heap s /\ trace s' = trace s /\ P b.

(** A selection drawn from a catalogue: items of the catalogue, no
    identifier twice, each of them acceptable to the order service. *)
Definition selection_of (catalogue sel : list item) : Prop :=
  NoDup (item_id <$> sel) /\
  (forall it, it ∈ sel -> it ∈ catalogue) /\
  Forall (fun it => valid_item it = true) sel.

(** Summary of the body of the [with] block of the two order-creating
    methods, used to state the lemmas that run them: the store it leaves
    and the mark it sets, for the list object [l] that [self.order_ids]
    denotes.  [chaos] tells the scenario helper (which tolerates a 5xx and
    reports the exception in its message) from [create_order]. *)
Definition handled (chaos : bool) (l : loc) (resp : response)
    (h : gmap loc (list pyval)) : gmap loc (list pyval) * event :=
  let parse_failure e :=
    if chaos then EFailure [Lit "Failed to parse response: "; FmtExn e]
    else EFailure [Lit "Failed to parse response"] in
  if status_code resp =? 200 then
    match json resp with
    | inl e => (h, parse_failure e)
    | inr order_data =>
        match Py.get order_data "order_id" with
        | inl e => (h, parse_failure e)
        | inr order_id =>
            if truthy order_id && (Z.of_nat (length (h !!! l)) <? 100)
            then (<[l := (h !!! l) ++ [order_id]]> h, ESuccess)
            else (h, ESuccess)
        end
    end
  else if chaos && (500 <=? status_code resp) then (h, ESuccess)
  else (h, EFailure [Lit "Got status "; Fmt (PInt (status_code resp))]).

(** A stage table read at [t]: the stages before [st] do not exceed [t],
    [st] does. *)
Definition first_stage_exceeding (stages : list stage) (t : float) (st : stage) : Prop :=
  exists pre post,
    stages = pre ++ st :: post /\
    Forall (fun s0 => PrimFloat.ltb t (float_of_int (duration s0)) = false) pre /\
    PrimFloat.ltb t (float_of_int (duration st)) = true.

(** The endpoints a journal shows [requests.post] was called on, in
    order. *)
Fixpoint urls_posted (j : list Journal.entry) : list string :=
  match j with
  | [] => []
  | Journal.RequestsPost url _ :: j' => url :: urls_posted j'
  | _ :: j' => urls_posted j'
  end.

(** A circuit-status body that carries the state of both circuits:
    [{"inventory_circuit": {"state": ...}, "payment_circuit": {"state": ...}}],
    possibly with more fields. *)
Definition reports_both_circuits (resp : response)
    (inventory_state payment_state : pyval) : Prop :=
  exists d i p,
    json resp = inr (PDict d) /\
    d !! "inventory_circuit" = Some (PDict i) /\
    i !! "state" = Some inventory_state /\
    d !! "payment_circuit" = Some (PDict p) /\
    p !! "state" = Some payment_state.

(** The schedules announced by the docstrings of the two load shapes:
    from which second, up to which second, how many users. *)
Definition step_docstring : list (Z * Z * Z) :=
  [ (0, 60, 10); (60, 120, 25); (120, 180, 50); (180, 240, 75); (240, 300, 100) ].

Definition spike_docstring : list (Z * Z * Z) :=
  [ (0, 30, 10); (30, 60, 100); (60, 90, 10); (90, 120, 100); (120, 150, 10) ].

(** [tick] commands the announced number of users throughout a window. *)
Definition keeps_window (tick : float -> option (Z * Z)) (w : Z * Z * Z) : Prop :=
  forall t : float,
    PrimFloat.leb (float_of_int (fst (fst w))) t = true ->
    PrimFloat.ltb t (float_of_int (snd (fst w))) = true ->
    exists r, tick t = Some (snd w, r).

(** * Properties *)

(** ** Comparison of binary64 floats *)

Section FloatOrder.

Ltac case_compare :=
  repeat match goal with
    | |- context [PosDef.Pos.compare_cont Eq ?p ?q] =>
        change (PosDef.Pos.compare_cont Eq p q) with (Pos.compare p q)
    end;
  repeat match goal with
    | |- context [Z.compare ?x ?y] => destruct (Z.compare_spec x y)
    | |- context [Pos.compare ?x ?y] => destruct (Pos.compare_spec x y)
    end.

Lemma SFleb_ltb_trans (a b c : spec_float) :
  SFleb a b = true -> SFltb b c = true -> SFltb a c = true.
Proof.
  unfold SFleb, SFltb, SFcompare.
  destruct a as [sa|sa| |sa ma ea], b as [sb|sb| |sb mb eb], c as [sc|sc| |sc mc ec];
    repeat match goal with s : bool |- _ => destruct s end;
    try (intros; discriminate); try reflexivity.
  all: case_compare; cbn; try (intros; discriminate); try reflexivity; lia.
Qed.

(** [x <= y] and [y < z] give [x < z], NaN included (it satisfies neither
    premise). *)
Lemma leb_ltb_trans (x y z : float) :
  PrimFloat.leb x y = true -> PrimFloat.ltb y z = true -> PrimFloat.ltb x z = true.
Proof. rewrite leb_spec, !ltb_spec. apply SFleb_ltb_trans. Qed.

End FloatOrder.

(** ** Load shapes *)

Section LoadShapes.

Implicit Types (t : float) (stages : list stage) (st : stage).

Lemma tick_loop_None t stages :
  tick_loop t stages = None <->
  Forall (fun s0 => PrimFloat.ltb t (float_of_int (duration s0)) = false) stages.
Proof.
  induction stages as [|st0 rest IH]; cbn [tick_loop].
  - split; [constructor | reflexivity].
  - destruct (PrimFloat.ltb t (float_of_int (duration st0))) eqn:E.
    + split; [discriminate | intros H; inversion H; congruence].
    + rewrite IH. split; [intros H; constructor; assumption | intros H; inversion H; assumption].
Qed.

Lemma tick_loop_Some t stages u r :
  tick_loop t stages = Some (u, r) <->
  exists st, first_stage_exceeding stages t st /\ u = users st /\ r = spawn_rate st.
Proof.
  induction stages as [|st0 rest IH]; cbn [tick_loop].
  - split; [discriminate |].
    intros (st & (pre & post & Hsplit & _) & _). destruct pre; discriminate.
  - destruct (PrimFloat.ltb t (float_of_int (duration st0))) eqn:E.
    + split.
      * intros [= <- <-]. exists st0. split; [|split; reflexivity].
        exists [], rest. repeat split; [constructor | assumption].
      * intros (st & (pre & post & Hsplit & Hpre & Hst) & -> & ->).
        destruct pre as [|p pre]; cbn in Hsplit.
        -- injection Hsplit as <- _. reflexivity.
        -- injection Hsplit as <- _. inversion Hpre; congruence.
    + rewrite IH. split.
      * intros (st & (pre & post & Hsplit & Hpre & Hst) & Hu & Hr).
        exists st. split; [|split; assumption].
        exists (st0 :: pre), post. subst rest.
        repeat split; [constructor; assumption | assumption].
      * intros (st & (pre & post & Hsplit & Hpre & Hst) & Hu & Hr).
        destruct pre as [|p pre]; cbn in Hsplit.
        -- injection Hsplit as <- _. congruence.
        -- injection Hsplit as <- Hrest. exists st. split; [|split; assumption].
           exists pre, post. inversion Hpre; subst. repeat split; assumption.
Qed.

(** Past a bound that no stage exceeds, the loop falls through. *)
Lemma tick_loop_past t stages (bound : float) :
  PrimFloat.leb bound t = true ->
  Forall (fun s0 => PrimFloat.ltb bound (float_of_int (duration s0)) = false) stages ->
  tick_loop t stages = None.
Proof.
  intros Hle Hall. apply tick_loop_None.
  induction Hall as [|st0 rest H0 _ IH]; constructor; [|exact IH].
  destruct (PrimFloat.ltb t (float_of_int (duration st0))) eqn:E; [|reflexivity].
  rewrite <- H0. symmetry. exact (leb_ltb_trans _ _ _ Hle E).
Qed.

(** C9: [tick] of either shape returns the users and spawn rate of the first
    stage of its table whose duration strictly exceeds the run time, and
    [None] for every run time at or past the last duration (300 seconds for
    the step shape, 150 for the spike shape). *)
Theorem C9_tick_first_stage_or_stop :
  (forall t u r,
      StepLoadShape.tick t = Some (u, r) <->
      exists st, first_stage_exceeding StepLoadShape.stages t st /\
                 u = users st /\ r = spawn_rate st) /\
  (forall t u r,
      SpikeLoadShape.tick t = Some (u, r) <->
      exists st, first_stage_exceeding SpikeLoadShape.stages t st /\
                 u = users st /\ r = spawn_rate st) /\
  (forall t, PrimFloat.leb (float_of_int 300) t = true -> StepLoadShape.tick t = None) /\
  (forall t, PrimFloat.leb (float_of_int 150) t = true -> SpikeLoadShape.tick t = None).
Proof.
  split; [|split; [|split]].
  - intros t u r. apply tick_loop_Some.
  - intros t u r. apply tick_loop_Some.
  - intros t Hle. apply (tick_loop_past _ _ _ Hle).
    repeat constructor.
  - intros t Hle. apply (tick_loop_past _ _ _ Hle).
    repeat constructor.
Qed.

Lemma C9_tick_witness :
  StepLoadShape.tick 75%float = Some (25, 3) /\
  SpikeLoadShape.tick 45%float = Some (100, 20) /\
  StepLoadShape.tick 300%float = None /\
  SpikeLoadShape.tick 150%float = None.
Proof.
  destruct C9_tick_first_stage_or_stop as (Hstep & Hspike & Hstop & Hstop').
  split; [|split; [|split]].
  - apply Hstep. exists (Stage 120 25 3). split; [|split; reflexivity].
    exists [Stage 60 10 2], [Stage 180 50 5; Stage 240 75 5; Stage 300 100 5].
    repeat split. repeat constructor.
  - apply Hspike. exists (Stage 60 100 20). split; [|split; reflexivity].
    exists [Stage 30 10 2], [Stage 90 10 10; Stage 120 100 20; Stage 150 10 10].
    repeat split. repeat constructor.
  - apply Hstop. reflexivity.
  - apply Hstop'. reflexivity.
Defined.

(** C10: the user count commanded by the step shape never decreases with
    the run time, up to the end of the table at 300 seconds. *)
Theorem C10_step_users_monotone (t1 t2 : float) :
  PrimFloat.leb t1 t2 = true ->
  PrimFloat.ltb t2 (float_of_int 300) = true ->
  exists u1 r1 u2 r2,
    StepLoadShape.tick t1 = Some (u1, r1) /\
    StepLoadShape.tick t2 = Some (u2, r2) /\
    u1 <= u2.
Proof.
  intros Hle Hlt.
  unfold StepLoadShape.tick, StepLoadShape.stages. cbn [tick_loop duration users spawn_rate].
  repeat match goal with
    | |- context [PrimFloat.ltb t2 ?d] =>
        let E := fresh "E" in
        destruct (PrimFloat.ltb t2 d) eqn:E;
        [ rewrite ?(leb_ltb_trans _ _ _ Hle E) | ]
    end;
  try congruence;
  repeat match goal with
    | |- context [PrimFloat.ltb t1 ?d] => destruct (PrimFloat.ltb t1 d)
    end;
  do 4 eexists; (split; [reflexivity | split; [reflexivity | lia]]).
Qed.

Lemma C10_step_users_monotone_witness :
  exists u1 r1 u2 r2,
    StepLoadShape.tick 59.5%float = Some (u1, r1) /\
    StepLoadShape.tick 200%float = Some (u2, r2) /\
    u1 <= u2.
Proof. apply C10_step_users_monotone; reflexivity. Defined.

End LoadShapes.

(** ** The random module: what its results satisfy *)

Section RandomFacts.

Context {A : Type}.
Implicit Types (pool sel : list A) (s : state).

Lemma randbelow_draws n :
  draws_only (Random.randbelow n) (fun j => (0 < n -> j < n)%nat).
Proof.
  intros s. unfold Random.randbelow. destruct (rng s) as [|r rs].
  - exists 0%nat, s. repeat split; auto.
  - eexists _, _. repeat split. intros Hn. apply Nat.mod_upper_bound. lia.
Qed.

Lemma randint_draws a b :
  a <= b -> draws_only (Random.randint a b) (fun k => a <= k <= b).
Proof.
  intros Hab s. unfold Random.randint, bind.
  destruct (randbelow_draws (Z.to_nat (b - a + 1)) s) as (j & s' & -> & Hh & Ht & Hj).
  exists (a + Z.of_nat j), s'. repeat split; auto; cbn; lia.
Qed.

Lemma choice_draws (seq : list A) :
  seq <> [] -> draws_only (Random.choice seq) (fun x => x ∈ seq).
Proof.
  intros Hne s. unfold Random.choice. destruct seq as [|a0 seq0]; [congruence|].
  set (seq := a0 :: seq0). unfold bind.
  destruct (randbelow_draws (length seq) s) as (j & s' & -> & Hh & Ht & Hj).
  assert (Hlt : (j < length seq)%nat) by (apply Hj; cbn; lia).
  destruct (lookup_lt_is_Some_2 seq j Hlt) as [x Hx]. rewrite Hx.
  exists x, s'. repeat split; auto. eapply list_elem_of_lookup_2, Hx.
Qed.

(** One round of the selection loop: the chosen element and the shrunk
    pool together still hold the elements not selected before. *)
Lemma take_select pool (n j : nat) (x y : A) :
  (j < n)%nat -> pool !! j = Some x -> pool !! (n - 1)%nat = Some y ->
  take n pool ≡ₚ x :: take (n - 1) (<[j := y]> pool).
Proof.
  intros Hj Hx Hy.
  assert (Hn : n = S (n - 1)) by lia.
  rewrite Hn at 1. rewrite (take_S_r _ _ _ Hy).
  destruct (decide (j = n - 1)%nat) as [->|Hne].
  - assert (x = y) by congruence. subst y.
    rewrite (list_insert_id _ _ _ Hx).
    symmetry. apply Permutation_cons_append.
  - assert (Hj' : (j < n - 1)%nat) by lia.
    rewrite take_insert_lt by exact Hj'.
    assert (Hq : take (n - 1) pool !! j = Some x)
      by (rewrite lookup_take_lt by exact Hj'; exact Hx).
    rewrite <- (take_drop_middle _ _ _ Hq) at 1.
    rewrite insert_take_drop by (eapply lookup_lt_Some, Hq).
    rewrite <- Permutation_cons_append.
    rewrite <- !Permutation_middle. apply perm_swap.
Qed.

Lemma sample_loop_draws (k : nat) : forall pool (n : nat),
  (k <= n <= length pool)%nat ->
  draws_only (Random.sample_loop pool n k)
    (fun sel => length sel = k /\ exists rest, take n pool ≡ₚ sel ++ rest).
Proof.
  induction k as [|k IH]; intros pool n Hkn s; cbn [Random.sample_loop].
  - exists [], s. repeat split; auto. exists (take n pool). reflexivity.
  - unfold bind at 1.
    destruct (randbelow_draws n s) as (j & s1 & -> & Hh1 & Ht1 & Hj).
    assert (Hjn : (j < n)%nat) by (apply Hj; lia).
    destruct (lookup_lt_is_Some_2 pool j) as [x Hx]; [lia|].
    destruct (lookup_lt_is_Some_2 pool (n - 1)) as [y Hy]; [lia|].
    rewrite Hx, Hy. unfold bind.
    destruct (IH (<[j := y]> pool) (n - 1)%nat) with (s := s1)
      as (sel & s2 & -> & Hh2 & Ht2 & Hlen & rest & Hperm).
    { rewrite length_insert. lia. }
    exists (x :: sel), s2. repeat split; [congruence | congruence | cbn; lia |].
    exists rest. rewrite (take_select pool n j x y Hjn Hx Hy).
    cbn. constructor. exact Hperm.
Qed.

Lemma sample_draws (population : list A) (k : Z) :
  0 <= k <= Z.of_nat (length population) ->
  draws_only (Random.sample population k)
    (fun sel => Z.of_nat (length sel) = k /\ exists rest, population ≡ₚ sel ++ rest).
Proof.
  intros Hk s. unfold Random.sample.
  replace ((0 <=? k) && (k <=? Z.of_nat (length population))) with true
    by (symmetry; apply andb_true_iff; split; apply Z.leb_le; lia).
  cbn [negb].
  destruct (sample_loop_draws (Z.to_nat k) population (length population)) with (s := s)
    as (sel & s' & Hrun & Hh & Ht & Hlen & rest & Hperm); [lia|].
  exists sel, s'. repeat split; auto; [lia|].
  exists rest. rewrite <- Hperm. rewrite firstn_all. reflexivity.
Qed.

Lemma sample_rejects (population : list A) (k : Z) s :
  k < 0 \/ Z.of_nat (length population) < k ->
  Random.sample population k s = (inl ValueError, s).
Proof.
  intros Hk. unfold Random.sample.
  replace ((0 <=? k) && (k <=? Z.of_nat (length population))) with false; [reflexivity|].
  symmetry. apply andb_false_iff. rewrite !Z.leb_gt. lia.
Qed.

End RandomFacts.

(** ** Running the order-creating methods *)

Section Catalogue.

Lemma items_valid : Forall (fun it => valid_item it = true) OrderServiceUser.items.
Proof. repeat constructor. Qed.

Lemma items_ids_NoDup : NoDup (item_id <$> OrderServiceUser.items).
Proof.
  apply (bool_decide_unpack (NoDup (item_id <$> OrderServiceUser.items))).
  vm_compute. exact I.
Qed.

Lemma items_same : ResilienceTestUser.items = OrderServiceUser.items.
Proof. reflexivity. Qed.

Lemma selection_of_perm (sel rest : list item) :
  OrderServiceUser.items ≡ₚ sel ++ rest -> selection_of OrderServiceUser.items sel.
Proof.
  intros Hperm.
  assert (Hin : forall it, it ∈ sel -> it ∈ OrderServiceUser.items).
  { intros it Hit. rewrite Hperm. apply elem_of_app. left. exact Hit. }
  split; [|split].
  - pose proof items_ids_NoDup as Hnd.
    rewrite Hperm, fmap_app in Hnd. apply NoDup_app in Hnd. tauto.
  - exact Hin.
  - apply Forall_forall. intros it Hit.
    exact (proj1 (Forall_forall _ _) items_valid it (Hin it Hit)).
Qed.

End Catalogue.

Section Running.

Implicit Types (self : user) (resp : response) (s : state).

(** Every class of the two files inherits or binds [order_ids], so the
    attribute always resolves. *)
Lemma resolve_order_ids self : exists l, resolve self "order_ids" = inr l.
Proof.
  unfold resolve. destruct (user_dict self !! "order_ids") as [l|]; [eauto|].
  destruct (user_class self); cbn; eauto.
Qed.

Lemma resolve_new_user id c :
  resolve (new_user id c) "order_ids" =
  inr (match c with
       | Cls.OrderServiceUser => Cls.order_ids_OrderServiceUser
       | _ => Cls.order_ids_ResilienceTestUser
       end).
Proof. destruct c; reflexivity. Qed.

Ltac run_block Hl :=
  unfold bind, emit, try_except, lift, len_order_ids, append_order_ids,
    getattr, read_list, append, ret, raise, handled;
  rewrite ?Hl; cbn;
  repeat match goal with
    | |- context [if ?b then _ else _] => destruct b eqn:?; cbn
    | |- context [match json ?r with _ => _ end] => destruct (json r) eqn:?; cbn
    | |- context [match Py.get ?v ?k with _ => _ end] => destruct (Py.get v k) eqn:?; cbn
    end;
  rewrite ?Hl; cbn;
  rewrite <- ?app_assoc; cbn [app];
  try reflexivity; try discriminate; try congruence.

Lemma create_order_run self resp s :
  exists sel r l,
    resolve self "order_ids" = inr l /\
    (1 <= length sel <= 3)%nat /\
    selection_of OrderServiceUser.items sel /\
    OrderServiceUser.create_order self resp s =
      (inr tt,
       State r (fst (handled false l resp (heap s)))
         (trace s ++ [EPost "/order/create" (Payload sel) "/order/create";
                      snd (handled false l resp (heap s))])).
Proof.
  destruct (resolve_order_ids self) as [l Hl].
  destruct (randint_draws 1 3 ltac:(lia) s) as (k & s1 & Hk & Hh1 & Ht1 & Hrange).
  destruct (sample_draws OrderServiceUser.items k ltac:(cbn; lia) s1)
    as (sel & s2 & Hsel & Hh2 & Ht2 & Hlen & rest & Hperm).
  exists sel, (rng s2), l.
  split; [exact Hl|]. split; [lia|]. split; [eapply selection_of_perm, Hperm|].
  unfold OrderServiceUser.create_order.
  unfold bind at 1. rewrite Hk. unfold bind at 1. rewrite Hsel.
  destruct s2 as [r2 h2 t2]. cbn in Hh2, Ht2. subst h2 t2. rewrite Hh1, Ht1.
  run_block Hl.
Qed.

Lemma create_valid_order_run self (num_items : option Z) resp s :
  sends_request num_items ->
  exists sel r l,
    resolve self "order_ids" = inr l /\
    match num_items with
    | Some n => Z.of_nat (length sel) = Z.min n 5
    | None => (1 <= length sel <= 3)%nat
    end /\
    selection_of ResilienceTestUser.items sel /\
    ResilienceTestUser.create_valid_order self num_items resp s =
      (inr tt,
       State r (fst (handled true l resp (heap s)))
         (trace s ++ [EPost "/order/create" (Payload sel) "/order/create";
                      snd (handled true l resp (heap s))])).
Proof.
  intros Harg.
  destruct (resolve_order_ids self) as [l Hl].
  assert (Hk : exists k s1,
             match num_items with
             | Some k0 => ret k0
             | None => Random.randint 1 3
             end s = (inr k, s1) /\ heap s1 = heap s /\ trace s1 = trace s /\
             0 <= k /\
             match num_items with
             | Some n => Z.min k 5 = Z.min n 5
             | None => 1 <= Z.min k 5 <= 3
             end).
  { destruct num_items as [n|].
    - exists n, s. repeat split; auto.
    - destruct (randint_draws 1 3 ltac:(lia) s) as (k & s1 & Hk & Hh1 & Ht1 & Hrange).
      exists k, s1. repeat split; auto; lia. }
  destruct Hk as (k & s1 & Hk & Hh1 & Ht1 & Hk0 & Hcount).
  destruct (sample_draws ResilienceTestUser.items
              (Z.min k (Z.of_nat (length ResilienceTestUser.items))) ltac:(cbn; lia) s1)
    as (sel & s2 & Hsel & Hh2 & Ht2 & Hlen & rest & Hperm).
  exists sel, (rng s2), l.
  split; [exact Hl|]. split.
  { cbn in Hlen. destruct num_items; lia. }
  split; [eapply selection_of_perm, Hperm|].
  unfold ResilienceTestUser.create_valid_order.
  unfold bind at 1. rewrite Hk. unfold bind at 1. rewrite Hsel.
  destruct s2 as [r2 h2 t2]. cbn in Hh2, Ht2. subst h2 t2. rewrite Hh1, Ht1.
  run_block Hl.
Qed.

(** A negative [num_items] makes [random.sample] raise before anything is
    sent. *)
Lemma create_valid_order_raises self (n : Z) resp s :
  n < 0 ->
  ResilienceTestUser.create_valid_order self (Some n) resp s = (inl ValueError, s).
Proof.
  intros Hn. unfold ResilienceTestUser.create_valid_order.
  unfold bind at 1. cbn [ret]. unfold bind at 1.
  rewrite sample_rejects by (cbn; lia). reflexivity.
Qed.

Lemma get_order_details_same self :
  ResilienceTestUser.get_order_details self = OrderServiceUser.get_order self.
Proof. reflexivity. Qed.

Lemma get_order_run self s :
  exists l r,
    resolve self "order_ids" = inr l /\
    ((heap s !!! l = [] /\
      OrderServiceUser.get_order self s =
        (inr tt, State r (heap s)
                   (trace s ++ [EGet [Lit "/order/dummy-order-id"] "/order/:orderId"]))) \/
     (exists order_id,
        order_id ∈ (heap s !!! l : list pyval) /\
        OrderServiceUser.get_order self s =
          (inr tt, State r (heap s)
                     (trace s ++ [EGet [Lit "/order/"; Fmt order_id] "/order/:orderId"])))).
Proof.
  destruct (resolve_order_ids self) as [l Hl].
  unfold OrderServiceUser.get_order, getattr. rewrite Hl.
  unfold bind, lift, ret, read_list. cbn [truthy].
  destruct (heap s !!! l) as [|v0 ids] eqn:Hids.
  - exists l, (rng s). split; [reflexivity|]. left. split; [exact Hids | reflexivity].
  - destruct (choice_draws (v0 :: ids) ltac:(discriminate) s)
      as (order_id & s' & Hc & Hh & Ht & Hin).
    exists l, (rng s'). split; [reflexivity|]. right.
    exists order_id. split; [rewrite Hids; exact Hin|].
    rewrite Hids, Hc. unfold emit. rewrite Hh, Ht. reflexivity.
Qed.

Lemma mixed_create_valid_order_run depth self s :
  MixedWorkloadUser.create_valid_order depth self s = (inl RecursionError, s).
Proof. induction depth as [|d IH]; [reflexivity | exact IH]. Qed.

(** The store after the [with] block: untouched, or one identifier longer
    at [l], under the conditions the code tests. *)
Lemma handled_heap chaos l resp (h : gmap loc (list pyval)) :
  fst (handled chaos l resp h) = h \/
  exists order_data order_id,
    status_code resp = 200 /\
    json resp = inr order_data /\
    Py.get order_data "order_id" = inr order_id /\
    truthy order_id = true /\
    (length (h !!! l) < 100)%nat /\
    fst (handled chaos l resp h) = <[l := (h !!! l) ++ [order_id]]> h.
Proof.
  unfold handled.
  destruct (status_code resp =? 200) eqn:Hst.
  - destruct (json resp) as [e|order_data] eqn:Hj; [left; reflexivity|].
    destruct (Py.get order_data "order_id") as [e|order_id] eqn:Hg; [left; reflexivity|].
    destruct (truthy order_id) eqn:Ht; [|left; reflexivity].
    destruct (Z.of_nat (length (h !!! l)) <? 100) eqn:Hlen; [|left; reflexivity].
    right. exists order_data, order_id.
    apply Z.eqb_eq in Hst. apply Z.ltb_lt in Hlen.
    repeat split; auto. lia.
  - left. destruct (chaos && (500 <=? status_code resp)); reflexivity.
Qed.

End Running.

(** ** Marking of responses *)

Section Marking.

Implicit Types (self : user) (resp : response) (s : state).

Lemma events_since_app s s' (new : list event) :
  trace s' = trace s ++ new -> events_since s s' = new.
Proof. unfold events_since. intros ->. apply drop_app_length. Qed.

Lemma order_ids_of_resolved self s l :
  resolve self "order_ids" = inr l -> order_ids_of self s = inr (heap s !!! l).
Proof.
  intros Hl. unfold order_ids_of, getattr, bind, lift, read_list, ret.
  rewrite Hl. reflexivity.
Qed.

(** The mark left by the [with] block, case by case. *)
Lemma handled_mark_success chaos l resp (h : gmap loc (list pyval)) :
  snd (handled chaos l resp h) = ESuccess <->
  (chaos = true /\ 500 <= status_code resp) \/
  (status_code resp = 200 /\ exists d, json resp = inr (PDict d)).
Proof.
  unfold handled.
  destruct (status_code resp =? 200) eqn:Hst.
  - apply Z.eqb_eq in Hst.
    destruct (json resp) as [e|order_data] eqn:Hj.
    + split.
      * destruct chaos; discriminate.
      * intros [[_ H500] | [_ [d Hd]]]; [lia | discriminate].
    + destruct order_data; cbn [Py.get];
        try (split;
             [ destruct chaos; discriminate
             | intros [[_ H500] | [_ [d0 Hd]]]; [lia | discriminate] ]).
      split.
      * intros _. right. split; [exact Hst | eauto].
      * intros _. destruct (_ && _); reflexivity.
  - apply Z.eqb_neq in Hst. destruct chaos; cbn [andb].
    + destruct (500 <=? status_code resp) eqn:H500.
      * apply Z.leb_le in H500. split; [intros _; left; split; [reflexivity | exact H500] | reflexivity].
      * apply Z.leb_gt in H500. split; [discriminate |].
        intros [[_ H] | [H _]]; [lia | congruence].
    + split; [discriminate |].
      intros [[H _] | [H _]]; [discriminate | congruence].
Qed.

Lemma handled_mark_cases chaos l resp (h : gmap loc (list pyval)) :
  snd (handled chaos l resp h) = ESuccess \/
  exists msg, snd (handled chaos l resp h) = EFailure msg.
Proof.
  unfold handled.
  repeat match goal with
    | |- context [if ?b then _ else _] => destruct b
    | |- context [match json ?r with _ => _ end] => destruct (json r)
    | |- context [match Py.get ?v ?k with _ => _ end] => destruct (Py.get v k)
    end; cbn; eauto.
Qed.

Lemma expect_400_run (body : payload) (name : string) resp s :
  FailFastUser.expect_400 body name resp s =
  (inr tt,
   State (rng s) (heap s)
     (trace s ++ [EPost "/order/create" body name;
                  if status_code resp =? 400 then ESuccess
                  else EFailure [Lit "Expected 400, got "; Fmt (PInt (status_code resp))]])).
Proof.
  unfold FailFastUser.expect_400, bind, emit. cbn [trace heap rng].
  destruct (status_code resp =? 400); cbn [trace heap rng];
    rewrite <- app_assoc; reflexivity.
Qed.

Lemma expect_400_marks (body : payload) (name : string) resp s :
  valid_payload body = false ->
  let out := FailFastUser.expect_400 body name resp s in
  fst out = inr tt /\
  (exists body',
      posted (events_since s (snd out)) = [body'] /\ valid_payload body' = false) /\
  (marks (events_since s (snd out)) = [ESuccess] <-> status_code resp = 400) /\
  (status_code resp <> 400 ->
   marks (events_since s (snd out)) =
     [EFailure [Lit "Expected 400, got "; Fmt (PInt (status_code resp))]]).
Proof.
  intros Hbody out. subst out. rewrite expect_400_run. cbn [fst snd].
  erewrite events_since_app by (cbn [trace]; reflexivity).
  split; [reflexivity|].
  destruct (status_code resp =? 400) eqn:Hst;
    (split; [exists body; split; [reflexivity | exact Hbody]|]); cbn.
  - apply Z.eqb_eq in Hst. split; [tauto | congruence].
  - apply Z.eqb_neq in Hst. split; [split; [discriminate | congruence] | reflexivity].
Qed.

(** C4: each invalid-order task of [FailFastUser] posts a body the order
    service must reject, marks the response a success exactly when its
    status code is 400, and marks it a failure for every other status. *)
Theorem C4_fail_fast_expects_400 :
  Forall (fun wt : nat * (user -> response -> M unit) =>
    forall self resp s,
      let out := snd wt self resp s in
      fst out = inr tt /\
      (exists body,
          posted (events_since s (snd out)) = [body] /\ valid_payload body = false) /\
      (marks (events_since s (snd out)) = [ESuccess] <-> status_code resp = 400) /\
      (status_code resp <> 400 ->
       marks (events_since s (snd out)) =
         [EFailure [Lit "Expected 400, got "; Fmt (PInt (status_code resp))]]))
    FailFastUser.tasks.
Proof.
  unfold FailFastUser.tasks.
  repeat (constructor;
          [intros self resp s; apply expect_400_marks; reflexivity|]).
  constructor.
Qed.

End Marking.

(** ** Creating orders: marks, parse failures, payloads *)

Section Creating.

Implicit Types (self : user) (resp : response) (s : state).

Lemma marks_post_then (path name : string) (body : payload) (m : event) :
  m = ESuccess \/ (exists msg, m = EFailure msg) ->
  marks [EPost path body name; m] = [m].
Proof. intros [-> | [msg ->]]; reflexivity. Qed.

(** C3, as the code has it: in [ResilienceTestUser.create_valid_order] a
    response is marked a success exactly when its status code is 500 or
    more, or it is 200 and [response.json()] returns a JSON object; every
    other outcome is marked a failure. *)
Theorem C3_create_valid_order_marks self (num_items : option Z) resp s :
  sends_request num_items ->
  let s' := snd (ResilienceTestUser.create_valid_order self num_items resp s) in
  (marks (events_since s s') = [ESuccess] <->
   500 <= status_code resp \/
   (status_code resp = 200 /\ exists d, json resp = inr (PDict d))) /\
  (marks (events_since s s') = [ESuccess] \/
   exists msg, marks (events_since s s') = [EFailure msg]).
Proof.
  intros Harg s'. subst s'.
  destruct (create_valid_order_run self num_items resp s Harg)
    as (sel & r & l & Hl & _ & _ & ->).
  cbn [snd]. erewrite events_since_app by (cbn [trace]; reflexivity).
  rewrite marks_post_then by apply handled_mark_cases.
  split.
  - pose proof (handled_mark_success true l resp (heap s)) as Hm.
    split.
    + intros [= Hs]. apply Hm in Hs.
      destruct Hs as [[_ H] | H]; [left | right]; exact H.
    + intros H. f_equal. apply Hm.
      destruct H as [H | H]; [left; split; [reflexivity | exact H] | right; exact H].
  - destruct (handled_mark_cases true l resp (heap s)) as [-> | [msg ->]]; eauto.
Qed.

Lemma C3_create_valid_order_marks_witness :
  let resp := Response 503 (inl JSONDecodeError) in
  let s := initial_state [4%nat; 1%nat; 7%nat] in
  let s' := snd (ResilienceTestUser.create_valid_order
                   (new_user 0 Cls.CombinedChaosUser) (Some 2) resp s) in
  (marks (events_since s s') = [ESuccess] <->
   500 <= status_code resp \/
   (status_code resp = 200 /\ exists d, json resp = inr (PDict d))) /\
  (marks (events_since s s') = [ESuccess] \/
   exists msg, marks (events_since s s') = [EFailure msg]).
Proof.
  apply (C3_create_valid_order_marks (new_user 0 Cls.CombinedChaosUser) (Some 2)).
  unfold sends_request. lia.
Defined.

(** A 200 response whose body is the JSON array [[]] parses, and yet the
    response is marked a failure: [order_data.get] raises. *)
Lemma C3_counterexample :
  let resp := Response 200 (inr (PList [])) in
  let s := initial_state [] in
  let s' := snd (ResilienceTestUser.create_valid_order
                   (new_user 0 Cls.NormalOperationUser) None resp s) in
  status_code resp = 200 /\
  json resp = inr (PList []) /\
  marks (events_since s s') =
    [EFailure [Lit "Failed to parse response: "; FmtExn AttributeError]].
Proof. repeat split. Qed.

(** C5: when [response.json()] raises on a 200 response, the method
    returns normally, the response gets exactly one mark, a failure, and
    the cached list is what it was. *)
Theorem C5_parse_exception_is_one_failure
    self self' (num_items : option Z) resp s (e : exn) :
  status_code resp = 200 ->
  json resp = inl e ->
  sends_request num_items ->
  let out := OrderServiceUser.create_order self resp s in
  let out' := ResilienceTestUser.create_valid_order self' num_items resp s in
  (fst out = inr tt /\
   marks (events_since s (snd out)) = [EFailure [Lit "Failed to parse response"]] /\
   heap (snd out) = heap s /\
   order_ids_of self (snd out) = order_ids_of self s) /\
  (fst out' = inr tt /\
   marks (events_since s (snd out')) =
     [EFailure [Lit "Failed to parse response: "; FmtExn e]] /\
   heap (snd out') = heap s /\
   order_ids_of self' (snd out') = order_ids_of self' s).
Proof.
  intros Hst Hj Harg out out'. subst out out'.
  destruct (create_order_run self resp s) as (sel & r & l & Hl & _ & _ & ->).
  destruct (create_valid_order_run self' num_items resp s Harg)
    as (sel' & r' & l' & Hl' & _ & _ & ->).
  cbn [fst snd heap].
  rewrite !(order_ids_of_resolved _ _ _ Hl), !(order_ids_of_resolved _ _ _ Hl').
  cbn [heap].
  erewrite !events_since_app by (cbn [trace]; reflexivity).
  unfold handled. rewrite Hst, Hj. cbn.
  repeat split.
Qed.

Lemma C5_parse_exception_witness :
  let self := new_user 3 Cls.OrderServiceUser in
  let self' := new_user 4 Cls.CircuitBreakerPaymentUser in
  let resp := Response 200 (inl JSONDecodeError) in
  let s := initial_state [2%nat; 9%nat] in
  let out := OrderServiceUser.create_order self resp s in
  let out' := ResilienceTestUser.create_valid_order self' None resp s in
  (fst out = inr tt /\
   marks (events_since s (snd out)) = [EFailure [Lit "Failed to parse response"]] /\
   heap (snd out) = heap s /\
   order_ids_of self (snd out) = order_ids_of self s) /\
  (fst out' = inr tt /\
   marks (events_since s (snd out')) =
     [EFailure [Lit "Failed to parse response: "; FmtExn JSONDecodeError]] /\
   heap (snd out') = heap s /\
   order_ids_of self' (snd out') = order_ids_of self' s).
Proof.
  apply (C5_parse_exception_is_one_failure
           (new_user 3 Cls.OrderServiceUser) (new_user 4 Cls.CircuitBreakerPaymentUser)
           None (Response 200 (inl JSONDecodeError)) (initial_state [2%nat; 9%nat])
           JSONDecodeError); [reflexivity | reflexivity | exact I].
Defined.

Lemma posted_post_then (path name : string) (body : payload) (m : event) :
  m = ESuccess \/ (exists msg, m = EFailure msg) ->
  posted [EPost path body name; m] = [body].
Proof. intros [-> | [msg ->]]; reflexivity. Qed.

Lemma selection_valid_payload (catalogue sel : list item) :
  (1 <= length sel)%nat -> selection_of catalogue sel ->
  valid_payload (Payload sel) = true.
Proof.
  intros Hlen (_ & _ & Hvalid). unfold valid_payload. cbn [payload_items].
  destruct sel as [|it sel]; [cbn in Hlen; lia|].
  apply forallb_forall. intros x Hx.
  exact (proj1 (List.Forall_forall _ _) Hvalid x Hx).
Qed.

(** C6: every payload sent by [create_order] and by [create_valid_order],
    called without [num_items] as every task of the repository calls it,
    is a non-empty list of 1 to 3 distinct items sampled from the fixed
    five-item catalogue, and every item in it has a non-empty [item_id],
    a positive quantity and a positive price: the payload satisfies the
    validity rules of the order service. *)
Theorem C6_payloads_are_valid self self' resp s :
  length OrderServiceUser.items = 5%nat /\
  length ResilienceTestUser.items = 5%nat /\
  (exists sel,
      posted (events_since s (snd (OrderServiceUser.create_order self resp s)))
        = [Payload sel] /\
      (1 <= length sel <= 3)%nat /\
      NoDup sel /\
      selection_of OrderServiceUser.items sel /\
      valid_payload (Payload sel) = true) /\
  (exists sel,
      posted (events_since s
                (snd (ResilienceTestUser.create_valid_order self' None resp s)))
        = [Payload sel] /\
      (1 <= length sel <= 3)%nat /\
      NoDup sel /\
      selection_of ResilienceTestUser.items sel /\
      valid_payload (Payload sel) = true).
Proof.
  split; [reflexivity|]. split; [reflexivity|]. split.
  - destruct (create_order_run self resp s) as (sel & r & l & _ & Hlen & Hsel & ->).
    exists sel. cbn [snd].
    erewrite events_since_app by (cbn [trace]; reflexivity).
    rewrite posted_post_then by apply handled_mark_cases.
    split; [reflexivity|]. split; [exact Hlen|].
    split; [eapply NoDup_fmap_1, Hsel|]. split; [exact Hsel|].
    eapply selection_valid_payload; [lia | exact Hsel].
  - destruct (create_valid_order_run self' None resp s I)
      as (sel & r & l & _ & Hlen & Hsel & ->).
    exists sel. cbn [snd].
    erewrite events_since_app by (cbn [trace]; reflexivity).
    rewrite posted_post_then by apply handled_mark_cases.
    split; [reflexivity|]. split; [exact Hlen|].
    split; [eapply NoDup_fmap_1, Hsel|]. split; [exact Hsel|].
    eapply selection_valid_payload; [lia | exact Hsel].
Qed.

End Creating.

(** ** The cached list of order identifiers *)

Section Cache.

Implicit Types (self : user) (resp : response) (s : state) (l : loc).

(** A truthy [order_data.get("order_id")] is the field of a JSON object. *)
Lemma get_truthy (order_data order_id : pyval) :
  Py.get order_data "order_id" = inr order_id ->
  truthy order_id = true ->
  exists d, order_data = PDict d /\ d !! "order_id" = Some order_id.
Proof.
  destruct order_data; cbn [Py.get]; try discriminate.
  intros [= <-] Ht. exists d. split; [reflexivity|].
  destruct (d !! "order_id") as [v|]; cbn in *; [reflexivity | discriminate].
Qed.

(** One call of the runner, seen from the store: it is left as it was,
    or one list object had room and got the [order_id] field of the 200
    response handed to an order-creating call. *)
Lemma run_call_store (c : call) s :
  heap (snd (run_call c s)) = heap s \/
  exists resp d order_id l0,
    create_response c = Some resp /\
    status_code resp = 200 /\
    json resp = inr (PDict d) /\
    d !! "order_id" = Some order_id /\
    truthy order_id = true /\
    (length (heap s !!! l0) < 100)%nat /\
    heap (snd (run_call c s)) = <[l0 := (heap s !!! l0) ++ [order_id]]> (heap s).
Proof.
  assert (Hhandled : forall chaos l0 resp,
    fst (handled chaos l0 resp (heap s)) = heap s \/
    exists d order_id,
      status_code resp = 200 /\ json resp = inr (PDict d) /\
      d !! "order_id" = Some order_id /\ truthy order_id = true /\
      (length (heap s !!! l0) < 100)%nat /\
      fst (handled chaos l0 resp (heap s)) = <[l0 := (heap s !!! l0) ++ [order_id]]> (heap s)).
  { intros chaos l0 resp.
    destruct (handled_heap chaos l0 resp (heap s))
      as [-> | (order_data & order_id & Hst & Hj & Hg & Ht & Hlen & ->)];
      [left; reflexivity|].
    right. destruct (get_truthy _ _ Hg Ht) as (d & -> & Hd).
    exists d, order_id. repeat split; auto. }
  destruct c as [self resp | self | self num_items resp | self | depth self];
    cbn [run_call create_response].
  - destruct (create_order_run self resp s) as (sel & r & l0 & _ & _ & _ & ->).
    cbn [snd heap].
    destruct (Hhandled false l0 resp) as [H | (d & v & H)]; [left; exact H|].
    right. exists resp, d, v, l0. tauto.
  - destruct (get_order_run self s) as (l0 & r & _ & [[_ ->] | (v & _ & ->)]);
      left; reflexivity.
  - assert (Harg : sends_request num_items \/ exists n, num_items = Some n /\ n < 0).
    { destruct num_items as [n|]; [|left; exact I].
      destruct (Z_lt_le_dec n 0); [right; eauto | left; assumption]. }
    destruct Harg as [Harg | (n & -> & Hn)].
    + destruct (create_valid_order_run self num_items resp s Harg)
        as (sel & r & l0 & _ & _ & _ & ->).
      cbn [snd heap].
      destruct (Hhandled true l0 resp) as [H | (d & v & H)]; [left; exact H|].
      right. exists resp, d, v, l0. tauto.
    + rewrite create_valid_order_raises by exact Hn.
      left. reflexivity.
  - rewrite get_order_details_same.
    destruct (get_order_run self s) as (l0 & r & _ & [[_ ->] | (v & _ & ->)]);
      left; reflexivity.
  - rewrite mixed_create_valid_order_run. left. reflexivity.
Qed.

(** The same, seen from any one list object. *)
Lemma run_call_heap (c : call) s l :
  heap (snd (run_call c s)) !!! l = heap s !!! l \/
  exists resp d order_id,
    create_response c = Some resp /\
    status_code resp = 200 /\
    json resp = inr (PDict d) /\
    d !! "order_id" = Some order_id /\
    truthy order_id = true /\
    (length (heap s !!! l) < 100)%nat /\
    heap (snd (run_call c s)) !!! l = heap s !!! l ++ [order_id].
Proof.
  destruct (run_call_store c s)
    as [-> | (resp & d & v & l0 & Hc & Hst & Hj & Hd & Ht & Hlen & ->)];
    [left; reflexivity|].
  destruct (decide (l0 = l)) as [->|Hne].
  - right. exists resp, d, v. rewrite lookup_total_insert_eq. repeat split; auto.
  - left. apply lookup_total_insert_ne. exact Hne.
Qed.

Lemma run_calls_cons (c : call) (cs : list call) s :
  run_calls (c :: cs) s = run_calls cs (snd (run_call c s)).
Proof. reflexivity. Qed.

Lemma run_calls_bounded (cs : list call) : forall s l,
  (length (heap s !!! l) <= 100)%nat ->
  (length (heap (run_calls cs s) !!! l) <= 100)%nat.
Proof.
  induction cs as [|c cs IH]; intros s l Hlen; [exact Hlen|].
  rewrite run_calls_cons. apply IH.
  destruct (run_call_heap c s l) as [-> | (_ & _ & v & _ & _ & _ & _ & _ & Hroom & ->)];
    [exact Hlen|].
  rewrite length_app. cbn. lia.
Qed.

(** Whatever holds of the entries at the start and of every identifier a
    200 response of the run carries, holds of the entries at the end. *)
Lemma run_calls_entries (Q : pyval -> Prop) (cs : list call) : forall s l,
  (forall v, v ∈ (heap s !!! l : list pyval) -> Q v) ->
  (forall resp d v,
      Some resp ∈ create_response <$> cs ->
      status_code resp = 200 -> json resp = inr (PDict d) ->
      d !! "order_id" = Some v -> truthy v = true -> Q v) ->
  forall v, v ∈ (heap (run_calls cs s) !!! l : list pyval) -> Q v.
Proof.
  induction cs as [|c cs IH]; intros s l Hstart Hresp; [exact Hstart|].
  rewrite run_calls_cons. apply IH.
  - intros v.
    destruct (run_call_heap c s l)
      as [-> | (resp & d & v' & Hc & Hst & Hj & Hd & Ht & _ & ->)];
      [apply Hstart|].
    rewrite elem_of_app, list_elem_of_singleton. intros [Hv | ->]; [apply Hstart, Hv|].
    apply (Hresp resp d v'); auto.
    rewrite fmap_cons, Hc. apply list_elem_of_here.
  - intros resp d v Hin. apply Hresp. rewrite fmap_cons. apply list_elem_of_further, Hin.
Qed.

(** C2: over any sequence of calls, a cached list that starts with at most
    100 entries never has more; a call appends only to a list of fewer than
    100 entries. *)
Theorem C2_order_ids_bounded (cs : list call) self s (ids : list pyval) :
  order_ids_of self s = inr ids ->
  (length ids <= 100)%nat ->
  (exists ids',
      order_ids_of self (run_calls cs s) = inr ids' /\ (length ids' <= 100)%nat) /\
  (forall c,
      order_ids_of self (snd (run_call c s)) = inr ids \/
      ((length ids < 100)%nat /\
       exists v, order_ids_of self (snd (run_call c s)) = inr (ids ++ [v]))).
Proof.
  destruct (resolve_order_ids self) as [l Hl].
  rewrite (order_ids_of_resolved _ _ _ Hl). intros [= <-] Hlen. split.
  - exists (heap (run_calls cs s) !!! l). split.
    + apply order_ids_of_resolved, Hl.
    + apply run_calls_bounded, Hlen.
  - intros c. rewrite (order_ids_of_resolved _ _ _ Hl).
    destruct (run_call_heap c s l) as [-> | (_ & _ & v & _ & _ & _ & _ & _ & Hroom & ->)];
      [left; reflexivity|].
    right. split; [exact Hroom | exists v; reflexivity].
Qed.

Lemma C2_order_ids_bounded_witness :
  let self := new_user 7 Cls.OrderServiceUser in
  let resp := Response 200 (inr (PDict {["order_id" := PStr "ord-7"]})) in
  let s := initial_state [5%nat; 3%nat] in
  (exists ids',
      order_ids_of self
        (run_calls [Call_create_order self resp; Call_get_order self;
                    Call_create_order self resp] s) = inr ids' /\
      (length ids' <= 100)%nat) /\
  (forall c,
      order_ids_of self (snd (run_call c s)) = inr [] \/
      ((length ([] : list pyval) < 100)%nat /\
       exists v, order_ids_of self (snd (run_call c s)) = inr ([] ++ [v]))).
Proof.
  apply (C2_order_ids_bounded _ (new_user 7 Cls.OrderServiceUser)
           (initial_state [5%nat; 3%nat]) []); [reflexivity | cbn; lia].
Defined.

(** The limit is reached and kept: after 101 successful creations the
    shared list holds 100 identifiers. *)
Example order_ids_saturate :
  let self := new_user 7 Cls.OrderServiceUser in
  let resp := Response 200 (inr (PDict {["order_id" := PStr "ord-7"]})) in
  order_ids_of self
    (run_calls (replicate 101 (Call_create_order self resp)) (initial_state []))
  = inr (replicate 100 (PStr "ord-7")).
Proof. vm_compute. reflexivity. Qed.

(** C7: an entry enters a cached list only as the [order_id] field of a 200
    response to an order creation; a response that is not a 200, that fails
    to parse, or whose [order_id] is missing or empty adds nothing; so every
    entry of a list that started empty is such a field. *)
Theorem C7_entries_come_from_200_responses :
  (forall c s self ids,
      order_ids_of self s = inr ids ->
      order_ids_of self (snd (run_call c s)) = inr ids \/
      exists resp d order_id,
        create_response c = Some resp /\
        status_code resp = 200 /\
        json resp = inr (PDict d) /\
        d !! "order_id" = Some order_id /\
        truthy order_id = true /\
        order_ids_of self (snd (run_call c s)) = inr (ids ++ [order_id])) /\
  (forall c s resp,
      create_response c = Some resp ->
      status_code resp <> 200 \/
      (exists e, json resp = inl e) \/
      (exists order_data,
          json resp = inr order_data /\
          forall d o, order_data = PDict d -> d !! "order_id" = Some o ->
                      truthy o = false) ->
      heap (snd (run_call c s)) = heap s) /\
  (forall cs draws self ids v,
      order_ids_of self (run_calls cs (initial_state draws)) = inr ids ->
      v ∈ ids ->
      exists resp d,
        Some resp ∈ create_response <$> cs /\
        status_code resp = 200 /\
        json resp = inr (PDict d) /\
        d !! "order_id" = Some v /\
        truthy v = true).
Proof.
  split; [|split].
  - intros c s self ids. destruct (resolve_order_ids self) as [l Hl].
    rewrite !(order_ids_of_resolved _ _ _ Hl). intros [= <-].
    destruct (run_call_heap c s l)
      as [-> | (resp & d & v & Hc & Hst & Hj & Hd & Ht & _ & ->)];
      [left; reflexivity|].
    right. exists resp, d, v. repeat split; auto.
  - intros c s resp Hc Hno.
    destruct (run_call_store c s)
      as [H | (resp' & d & v & l0 & Hc' & Hst & Hj & Hd & Ht & _ & _)];
      [exact H|].
    exfalso. assert (resp' = resp) by congruence. subst resp'.
    destruct Hno as [Hno | [[e He] | (order_data & Hod & Hfalsy)]].
    + contradiction.
    + congruence.
    + rewrite Hj in Hod. injection Hod as <-.
      rewrite (Hfalsy d v eq_refl Hd) in Ht. discriminate.
  - intros cs draws self ids v. destruct (resolve_order_ids self) as [l Hl].
    rewrite (order_ids_of_resolved _ _ _ Hl). intros [= <-] Hin.
    revert v Hin. apply run_calls_entries.
    + intros v Hv. exfalso. cbn [initial_state heap] in Hv.
      assert (Hempty : (initial_heap !!! l : list pyval) = []).
      { unfold initial_heap.
        destruct (decide (l = Cls.order_ids_OrderServiceUser)) as [->|H0];
          [apply lookup_total_insert_eq|].
        rewrite lookup_total_insert_ne by congruence.
        destruct (decide (l = Cls.order_ids_ResilienceTestUser)) as [->|H1];
          [apply lookup_total_insert_eq|].
        rewrite lookup_total_insert_ne by congruence.
        rewrite lookup_total_empty. reflexivity. }
      rewrite Hempty in Hv. inversion Hv.
    + intros resp d v Hin Hst Hj Hd Ht. exists resp, d. repeat split; auto.
Qed.

(** C8: [get_order] and [get_order_details] issue one GET, for an
    identifier taken from the cached list when it is not empty and for
    ["dummy-order-id"] when it is, and leave the list as it was. *)
Theorem C8_get_order_uses_cache :
  retrieves_from_cache OrderServiceUser.get_order /\
  retrieves_from_cache ResilienceTestUser.get_order_details.
Proof.
  assert (H : retrieves_from_cache OrderServiceUser.get_order).
  { intros self s.
    destruct (get_order_run self s) as (l & r & Hl & [[Hnil ->] | (v & Hin & ->)]);
      exists (heap s !!! l); cbn [fst snd heap];
      rewrite !(order_ids_of_resolved _ _ _ Hl); cbn [heap];
      erewrite events_since_app by (cbn [trace]; reflexivity);
      (do 4 (split; [reflexivity|])); split.
    - intros _. reflexivity.
    - intros Hne. congruence.
    - intros Hnil. rewrite Hnil in Hin. inversion Hin.
    - intros _. exists v. split; [exact Hin | reflexivity]. }
  split; [exact H | exact H].
Qed.

Lemma C7_entries_witness :
  let self := new_user 1 Cls.NormalOperationUser in
  let good := Response 200 (inr (PDict {["order_id" := PStr "ord-1"]})) in
  let bad := Response 404 (inr (PDict {["order_id" := PStr "ord-2"]})) in
  let cs := [Call_create_valid_order self None bad;
             Call_create_valid_order self None good] in
  order_ids_of self (run_calls cs (initial_state [])) = inr [PStr "ord-1"] /\
  exists resp d,
    Some resp ∈ create_response <$> cs /\
    status_code resp = 200 /\
    json resp = inr (PDict d) /\
    d !! "order_id" = Some (PStr "ord-1") /\
    truthy (PStr "ord-1") = true.
Proof.
  split; [reflexivity|].
  eapply (proj2 (proj2 C7_entries_come_from_200_responses)
            _ [] (new_user 1 Cls.NormalOperationUser)).
  - reflexivity.
  - apply list_elem_of_here.
Defined.

Lemma C8_get_order_witness :
  let self := new_user 2 Cls.OrderServiceUser in
  let s := State [0%nat]
             (<[Cls.order_ids_OrderServiceUser := [PStr "ord-1"]]> initial_heap) [] in
  events_since (initial_state []) (snd (OrderServiceUser.get_order self (initial_state [])))
    = [EGet [Lit "/order/dummy-order-id"] "/order/:orderId"] /\
  exists order_id,
    order_id ∈ [PStr "ord-1"] /\
    events_since s (snd (OrderServiceUser.get_order self s))
      = [EGet [Lit "/order/"; Fmt order_id] "/order/:orderId"].
Proof.
  destruct (proj1 C8_get_order_uses_cache (new_user 2 Cls.OrderServiceUser)
              (initial_state [])) as (ids & Hids & _ & _ & _ & Hempty & _).
  destruct (proj1 C8_get_order_uses_cache (new_user 2 Cls.OrderServiceUser)
              (State [0%nat]
                 (<[Cls.order_ids_OrderServiceUser := [PStr "ord-1"]]> initial_heap) []))
    as (ids' & Hids' & _ & _ & _ & _ & Hsome).
  injection Hids as <-. injection Hids' as <-.
  split; [apply Hempty; reflexivity | apply Hsome; discriminate].
Defined.

(** ** Who sees the cached list *)

Lemma class_getattr_order_ids (c : Cls.cls) :
  Cls.class_getattr c "order_ids" =
  Some (match c with
        | Cls.OrderServiceUser => Cls.order_ids_OrderServiceUser
        | _ => Cls.order_ids_ResilienceTestUser
        end).
Proof. destruct c; reflexivity. Qed.

(** C1, as the code has it: [order_ids] is a list object bound in the class
    body, so the instances whose classes resolve the name to the same
    binding share it.  When an instance's [create_order] or
    [create_valid_order] appends an identifier, every instance of that
    class family sees the list one identifier longer; an instance whose
    class resolves [order_ids] to the other binding sees its list as it
    was. *)
Theorem C1_order_ids_shared_per_class
    (i1 i2 : nat) (c1 c2 : Cls.cls) (num_items : option Z) resp s
    (d : gmap string pyval) (order_id : pyval) (ids : list pyval) :
  let u1 := new_user i1 c1 in
  let u2 := new_user i2 c2 in
  sends_request num_items ->
  status_code resp = 200 ->
  json resp = inr (PDict d) ->
  d !! "order_id" = Some order_id ->
  truthy order_id = true ->
  order_ids_of u2 s = inr ids ->
  (length ids < 100)%nat ->
  forall s',
    s' = snd (OrderServiceUser.create_order u1 resp s) \/
    s' = snd (ResilienceTestUser.create_valid_order u1 num_items resp s) ->
    (Cls.class_getattr c1 "order_ids" = Cls.class_getattr c2 "order_ids" ->
     order_ids_of u2 s' = inr (ids ++ [order_id])) /\
    (Cls.class_getattr c1 "order_ids" <> Cls.class_getattr c2 "order_ids" ->
     order_ids_of u2 s' = inr ids).
Proof.
  intros u1 u2 Harg Hst Hj Hd Ht Hids Hlen s' Hs'.
  pose proof (resolve_new_user i1 c1) as Hl1.
  pose proof (resolve_new_user i2 c2) as Hl2.
  rewrite !class_getattr_order_ids.
  set (l1 := match c1 with
             | Cls.OrderServiceUser => Cls.order_ids_OrderServiceUser
             | _ => Cls.order_ids_ResilienceTestUser
             end) in *.
  set (l2 := match c2 with
             | Cls.OrderServiceUser => Cls.order_ids_OrderServiceUser
             | _ => Cls.order_ids_ResilienceTestUser
             end) in *.
  fold u1 in Hl1. fold u2 in Hl2.
  rewrite (order_ids_of_resolved _ _ _ Hl2) in Hids. injection Hids as <-.
  rewrite (order_ids_of_resolved _ _ _ Hl2).
  assert (Hheap : exists chaos, heap s' = fst (handled chaos l1 resp (heap s))).
  { destruct Hs' as [-> | ->].
    - destruct (create_order_run u1 resp s) as (sel & r & l & Hl & _ & _ & ->).
      exists false. cbn [snd heap]. congruence.
    - destruct (create_valid_order_run u1 num_items resp s Harg)
        as (sel & r & l & Hl & _ & _ & ->).
      exists true. cbn [snd heap]. congruence. }
  destruct Hheap as [chaos ->]. split.
  - intros [= Heq]. rewrite Heq. unfold handled.
    rewrite Hst, Hj. cbn [Z.eqb Pos.eqb Py.get]. rewrite Hd. cbn [from_option id].
    rewrite Ht.
    replace (Z.of_nat (length (heap s !!! l2)) <? 100) with true
      by (symmetry; apply Z.ltb_lt; lia).
    cbn [andb fst]. rewrite lookup_total_insert_eq. reflexivity.
  - intros Hne.
    destruct (handled_heap chaos l1 resp (heap s))
      as [-> | (_ & v & _ & _ & _ & _ & _ & ->)]; [reflexivity|].
    rewrite lookup_total_insert_ne by congruence. reflexivity.
Qed.

Lemma C1_order_ids_shared_witness :
  let u1 := new_user 1 Cls.NormalOperationUser in
  let u2 := new_user 2 Cls.BulkheadUser in
  let u3 := new_user 3 Cls.OrderServiceUser in
  let resp := Response 200 (inr (PDict {["order_id" := PStr "ord-1"]})) in
  let s := initial_state [] in
  let s' := snd (ResilienceTestUser.create_valid_order u1 None resp s) in
  order_ids_of u2 s' = inr [PStr "ord-1"] /\
  order_ids_of u3 s' = inr [].
Proof.
  split.
  - apply (C1_order_ids_shared_per_class 1 2 Cls.NormalOperationUser Cls.BulkheadUser
             None (Response 200 (inr (PDict {["order_id" := PStr "ord-1"]})))
             (initial_state []) {["order_id" := PStr "ord-1"]} (PStr "ord-1") []);
      first [exact I | reflexivity | cbn; lia | right; reflexivity].
  - apply (C1_order_ids_shared_per_class 1 3 Cls.NormalOperationUser Cls.OrderServiceUser
             None (Response 200 (inr (PDict {["order_id" := PStr "ord-1"]})))
             (initial_state []) {["order_id" := PStr "ord-1"]} (PStr "ord-1") []);
      first [exact I | reflexivity | cbn; lia | right; reflexivity | discriminate].
Defined.

(** Two distinct instances, and the identifier one of them caches shows up
    in the list of the other: within [OrderServiceUser], and across two
    scenario subclasses of [ResilienceTestUser]. *)
Lemma C1_counterexample :
  let resp := Response 200 (inr (PDict {["order_id" := PStr "ord-1"]})) in
  let s := initial_state [] in
  let a1 := new_user 1 Cls.OrderServiceUser in
  let a2 := new_user 2 Cls.OrderServiceUser in
  let b1 := new_user 3 Cls.NormalOperationUser in
  let b2 := new_user 4 Cls.BulkheadUser in
  (a1 <> a2 /\
   order_ids_of a2 s = inr [] /\
   order_ids_of a2 (snd (OrderServiceUser.create_order a1 resp s)) = inr [PStr "ord-1"]) /\
  (b1 <> b2 /\
   order_ids_of b2 s = inr [] /\
   order_ids_of b2 (snd (ResilienceTestUser.create_valid_order b1 None resp s))
     = inr [PStr "ord-1"]).
Proof.
  split; (split; [discriminate | split; reflexivity]).
Qed.

End Cache.

(** ** Sample runs *)

Section SampleRuns.

(** Draws 1, 3, 0: two items are asked for; position 3 is taken first, the
    last item moves into its place, then position 0 is taken. *)
Example create_order_run_example :
  OrderServiceUser.create_order (new_user 1 Cls.OrderServiceUser)
    (Response 200 (inr (PDict {["order_id" := PStr "ord-1"]})))
    (initial_state [1%nat; 3%nat; 0%nat])
  = (inr tt,
     State []
       (<[Cls.order_ids_OrderServiceUser := [PStr "ord-1"]]> initial_heap)
       [EPost "/order/create"
          (Payload [Item "item-4" 1 (NFloat 299.99%float);
                    Item "item-1" 1 (NFloat 999.99%float)])
          "/order/create";
        ESuccess]).
Proof. reflexivity. Qed.

(** An empty [order_id] is not cached, and the response still counts as a
    success. *)
Example create_valid_order_empty_id_example :
  let s' := snd (ResilienceTestUser.create_valid_order
                   (new_user 1 Cls.BulkheadUser) None
                   (Response 200 (inr (PDict {["order_id" := PStr ""]})))
                   (initial_state [0%nat; 0%nat])) in
  heap s' = initial_heap /\ marks (trace s') = [ESuccess].
Proof. split; reflexivity. Qed.

(** The task of [MixedWorkloadUser] that shadows the helper never sends a
    request. *)
Example mixed_create_valid_order_example :
  MixedWorkloadUser.create_valid_order 1000 (new_user 1 Cls.MixedWorkloadUser)
    (initial_state [])
  = (inl RecursionError, initial_state []).
Proof. apply mixed_create_valid_order_run. Qed.

Example step_tick_examples :
  StepLoadShape.tick 0%float = Some (10, 2) /\
  StepLoadShape.tick 59.999%float = Some (10, 2) /\
  StepLoadShape.tick 60%float = Some (25, 3) /\
  StepLoadShape.tick 299.5%float = Some (100, 5) /\
  StepLoadShape.tick 300%float = None.
Proof. repeat split. Qed.

Example spike_tick_examples :
  SpikeLoadShape.tick 29.5%float = Some (10, 2) /\
  SpikeLoadShape.tick 30%float = Some (100, 20) /\
  SpikeLoadShape.tick 95%float = Some (100, 20) /\
  SpikeLoadShape.tick 149.9%float = Some (10, 10) /\
  SpikeLoadShape.tick 150%float = None.
Proof. repeat split. Qed.

End SampleRuns.

(** * Further properties *)

(** ** More on the order of floats *)

Section FloatOrderMore.

Ltac by_compare :=
  repeat match goal with
    | |- context [PosDef.Pos.compare_cont Eq ?p ?q] =>
        change (PosDef.Pos.compare_cont Eq p q) with (Pos.compare p q)
    end;
  repeat match goal with
    | |- context [Z.compare ?x ?y] => destruct (Z.compare_spec x y)
    | |- context [Pos.compare ?x ?y] => destruct (Pos.compare_spec x y)
    end;
  cbn; try (intros; discriminate); try reflexivity; try lia.

Lemma SFltb_trans (a b c : spec_float) :
  SFltb a b = true -> SFltb b c = true -> SFltb a c = true.
Proof.
  unfold SFltb, SFcompare.
  destruct a as [sa|sa| |sa ma ea], b as [sb|sb| |sb mb eb], c as [sc|sc| |sc mc ec];
    repeat match goal with s : bool |- _ => destruct s end;
    try (intros; discriminate); try reflexivity.
  all: by_compare.
Qed.

Lemma SFleb_not_ltb (a b : spec_float) :
  SFleb a b = true -> SFltb b a = false.
Proof.
  unfold SFleb, SFltb, SFcompare.
  destruct a as [sa|sa| |sa ma ea], b as [sb|sb| |sb mb eb];
    repeat match goal with s : bool |- _ => destruct s end;
    try (intros; discriminate); try reflexivity.
  all: by_compare.
Qed.

Lemma ltb_trans (x y z : float) :
  PrimFloat.ltb x y = true -> PrimFloat.ltb y z = true -> PrimFloat.ltb x z = true.
Proof. rewrite !ltb_spec. apply SFltb_trans. Qed.

Lemma leb_not_ltb (x y : float) :
  PrimFloat.leb x y = true -> PrimFloat.ltb y x = false.
Proof. rewrite leb_spec, ltb_spec. apply SFleb_not_ltb. Qed.

End FloatOrderMore.

(** ** Load shapes against their docstrings *)

Section Schedules.

Ltac in_window Hle Hlt :=
  cbn [fst snd] in Hle, Hlt;
  cbn [tick_loop duration users spawn_rate];
  rewrite Hlt;
  repeat match goal with
    | |- context [if PrimFloat.ltb ?t ?d then _ else _] =>
        let E := fresh "E" in
        destruct (PrimFloat.ltb t d) eqn:E;
        [ let C := fresh "C" in
          pose proof (leb_ltb_trans _ _ _ Hle E) as C;
          vm_compute in C; discriminate C
        | ]
    end;
  eexists; reflexivity.

(** X1: the step shape commands the number of users its docstring announces
    for each of the five one-minute windows. *)
Theorem X1_step_tick_follows_docstring :
  Forall (keeps_window StepLoadShape.tick) step_docstring.
Proof.
  unfold step_docstring, keeps_window, StepLoadShape.tick, StepLoadShape.stages.
  repeat (constructor; [intros t Hle Hlt; in_window Hle Hlt|]).
  constructor.
Qed.

(** X2: the spike shape commands the number of users its docstring
    announces for each of the five half-minute windows. *)
Theorem X2_spike_tick_follows_docstring :
  Forall (keeps_window SpikeLoadShape.tick) spike_docstring.
Proof.
  unfold spike_docstring, keeps_window, SpikeLoadShape.tick, SpikeLoadShape.stages.
  repeat (constructor; [intros t Hle Hlt; in_window Hle Hlt|]).
  constructor.
Qed.

Lemma X1_step_tick_witness :
  exists r, StepLoadShape.tick 100.5%float = Some (25, r).
Proof.
  apply (proj1 (List.Forall_forall _ _) X1_step_tick_follows_docstring (60, 120, 25));
    [right; left; reflexivity | reflexivity | reflexivity].
Defined.

Lemma X2_spike_tick_witness :
  exists r, SpikeLoadShape.tick 75.25%float = Some (10, r).
Proof.
  apply (proj1 (List.Forall_forall _ _) X2_spike_tick_follows_docstring (60, 90, 10));
    [right; right; left; reflexivity | reflexivity | reflexivity].
Defined.

Lemma tick_loop_stops_iff (t : float) (stages : list stage) (final : float) :
  Forall (fun s0 =>
            float_of_int (duration s0) = final \/
            PrimFloat.ltb (float_of_int (duration s0)) final = true) stages ->
  Exists (fun s0 => float_of_int (duration s0) = final) stages ->
  tick_loop t stages = None <-> PrimFloat.ltb t final = false.
Proof.
  intros Hall Hex. rewrite tick_loop_None. split.
  - intros Hnone. apply List.Exists_exists in Hex as (s0 & Hin & <-).
    exact (proj1 (List.Forall_forall _ _) Hnone s0 Hin).
  - intros Hfinal. apply List.Forall_forall. intros s0 Hin.
    destruct (proj1 (List.Forall_forall _ _) Hall s0 Hin) as [-> | Hlt]; [exact Hfinal|].
    destruct (PrimFloat.ltb t (float_of_int (duration s0))) eqn:E; [|reflexivity].
    rewrite <- Hfinal. symmetry. exact (ltb_trans _ _ _ E Hlt).
Qed.

(** X3: a load shape stops the test exactly when the run time is no longer
    below its last duration: the step shape keeps going for the whole 300
    seconds, the spike shape for the whole 150. *)
Theorem X3_tick_stops_exactly_at_the_end (t : float) :
  (StepLoadShape.tick t = None <-> PrimFloat.ltb t (float_of_int 300) = false) /\
  (SpikeLoadShape.tick t = None <-> PrimFloat.ltb t (float_of_int 150) = false).
Proof.
  split; apply tick_loop_stops_iff.
  - repeat (apply List.Forall_cons;
            [first [left; reflexivity | right; reflexivity]|]).
    apply List.Forall_nil.
  - do 4 apply Exists_cons_tl. apply Exists_cons_hd. reflexivity.
  - repeat (apply List.Forall_cons;
            [first [left; reflexivity | right; reflexivity]|]).
    apply List.Forall_nil.
  - do 4 apply Exists_cons_tl. apply Exists_cons_hd. reflexivity.
Qed.

(** X4: whatever the run time, neither shape commands fewer than 10 or more
    than 100 users, nor a spawn rate outside 2 to 20 users per second. *)
Theorem X4_tick_within_bounds (t : float) (u r : Z) :
  StepLoadShape.tick t = Some (u, r) \/ SpikeLoadShape.tick t = Some (u, r) ->
  10 <= u <= 100 /\ 2 <= r <= 20.
Proof.
  unfold StepLoadShape.tick, StepLoadShape.stages, SpikeLoadShape.tick,
    SpikeLoadShape.stages.
  cbn [tick_loop duration users spawn_rate].
  intros [H | H]; revert H;
    repeat match goal with
      | |- context [if PrimFloat.ltb ?x ?d then _ else _] =>
          destruct (PrimFloat.ltb x d)
      end;
    intros [= <- <-] || discriminate; lia.
Qed.

Lemma X4_tick_within_bounds_witness :
  10 <= 100 <= 100 /\ 2 <= 20 <= 20.
Proof.
  apply (X4_tick_within_bounds 45%float 100 20). right. reflexivity.
Defined.

End Schedules.

(** ** The tasks the scenario classes add *)

Section ScenarioTasks.

Implicit Types (self : user) (resp : response) (s : state).

(** X6: [create_invalid_order] posts exactly one body, one that the order
    service must reject, under the name ["/order/create [invalid]"]; it
    sets no mark, does not raise and leaves the cached list alone. *)
Theorem X6_create_invalid_order_posts_invalid_body self s :
  let out := MixedWorkloadUser.create_invalid_order self s in
  fst out = inr tt /\
  heap (snd out) = heap s /\
  exists body,
    events_since s (snd out) = [EPost "/order/create" body "/order/create [invalid]"] /\
    valid_payload body = false.
Proof.
  cbn zeta. unfold MixedWorkloadUser.create_invalid_order.
  set (invalid_payloads := [Payload []; _; _]).
  destruct (choice_draws invalid_payloads ltac:(discriminate) s)
    as (body & s' & Hc & Hh & Ht & Hin).
  unfold bind. rewrite Hc. unfold emit. cbn [fst snd heap].
  split; [reflexivity|]. split; [exact Hh|].
  exists body. split.
  - apply events_since_app. cbn [trace]. rewrite Ht. reflexivity.
  - subst invalid_payloads.
    repeat (apply elem_of_cons in Hin as [-> | Hin]; [reflexivity|]).
    inversion Hin.
Qed.

(** X7: [OrderServiceUser.create_order] never raises and sets exactly one
    mark: a success exactly when the status code is 200 and the body
    parses to a JSON object.  Unlike the scenario helper it marks a 5xx
    response a failure. *)
Theorem X7_create_order_marks self resp s :
  let out := OrderServiceUser.create_order self resp s in
  fst out = inr tt /\
  (marks (events_since s (snd out)) = [ESuccess] <->
   status_code resp = 200 /\ exists d, json resp = inr (PDict d)) /\
  (marks (events_since s (snd out)) = [ESuccess] \/
   exists msg, marks (events_since s (snd out)) = [EFailure msg]) /\
  (status_code resp <> 200 ->
   marks (events_since s (snd out)) =
     [EFailure [Lit "Got status "; Fmt (PInt (status_code resp))]]).
Proof.
  cbn zeta.
  destruct (create_order_run self resp s) as (sel & r & l & Hl & _ & _ & ->).
  cbn [fst snd]. erewrite events_since_app by (cbn [trace]; reflexivity).
  rewrite marks_post_then by apply handled_mark_cases.
  split; [reflexivity|].
  pose proof (handled_mark_success false l resp (heap s)) as Hm.
  split; [|split].
  - split.
    + intros [= Hs]. apply Hm in Hs. destruct Hs as [[H _] | H]; [discriminate | exact H].
    + intros H. f_equal. apply Hm. right. exact H.
  - destruct (handled_mark_cases false l resp (heap s)) as [-> | [msg ->]]; eauto.
  - intros Hst. apply Z.eqb_neq in Hst. unfold handled. rewrite Hst. reflexivity.
Qed.

(** X8: every order-creating task of the scenario classes calls the helper
    without [num_items]: it never raises and posts exactly one body, of 1
    to 3 catalogue items, which satisfies the validity rules of the order
    service. *)
Theorem X8_scenario_create_tasks_send_valid_bodies :
  Forall (fun wt : nat * (user -> response -> M unit) =>
    forall self resp s,
      let out := snd wt self resp s in
      fst out = inr tt /\
      exists sel,
        posted (events_since s (snd out)) = [Payload sel] /\
        (1 <= length sel <= 3)%nat /\
        selection_of ResilienceTestUser.items sel /\
        valid_payload (Payload sel) = true)
    scenario_create_tasks.
Proof.
  assert (H : forall self resp s,
    let out := ResilienceTestUser.create_valid_order self None resp s in
    fst out = inr tt /\
    exists sel,
      posted (events_since s (snd out)) = [Payload sel] /\
      (1 <= length sel <= 3)%nat /\
      selection_of ResilienceTestUser.items sel /\
      valid_payload (Payload sel) = true).
  { intros self resp s. cbn zeta.
    destruct (create_valid_order_run self None resp s I)
      as (sel & r & l & _ & Hlen & Hsel & ->).
    cbn [fst snd]. split; [reflexivity|]. exists sel.
    erewrite events_since_app by (cbn [trace]; reflexivity).
    rewrite posted_post_then by apply handled_mark_cases.
    split; [reflexivity|]. split; [exact Hlen|]. split; [exact Hsel|].
    eapply selection_valid_payload; [lia | exact Hsel]. }
  unfold scenario_create_tasks.
  repeat (apply List.Forall_cons; [exact H|]). apply List.Forall_nil.
Qed.

End ScenarioTasks.

(** ** The cached list over a run *)

Section CacheOverRuns.

Implicit Types (self : user) (resp : response) (s : state) (l : loc).

Lemma run_calls_prefix (cs : list call) : forall s l,
  (heap s !!! l : list pyval) `prefix_of` heap (run_calls cs s) !!! l.
Proof.
  induction cs as [|c cs IH]; intros s l; [reflexivity|].
  rewrite run_calls_cons. etransitivity; [|apply IH].
  destruct (run_call_heap c s l) as [-> | (_ & _ & v & _ & _ & _ & _ & _ & _ & ->)];
    [reflexivity | apply prefix_app_r; reflexivity].
Qed.

(** X9: the cached list only grows at its end: over any run of calls the
    list an instance saw at the start is a prefix of the list it sees at
    the end, so no identifier is ever removed, replaced or reordered. *)
Theorem X9_order_ids_append_only (cs : list call) self s (ids : list pyval) :
  order_ids_of self s = inr ids ->
  exists ids',
    order_ids_of self (run_calls cs s) = inr ids' /\ ids `prefix_of` ids'.
Proof.
  destruct (resolve_order_ids self) as [l Hl].
  rewrite !(order_ids_of_resolved _ _ _ Hl). intros [= <-].
  exists (heap (run_calls cs s) !!! l). split; [reflexivity | apply run_calls_prefix].
Qed.

Lemma X9_order_ids_append_only_witness :
  let self := new_user 1 Cls.CombinedChaosUser in
  let resp := Response 200 (inr (PDict {["order_id" := PStr "ord-2"]})) in
  let s := State [] (<[Cls.order_ids_ResilienceTestUser := [PStr "ord-1"]]> initial_heap) [] in
  exists ids',
    order_ids_of self
      (run_calls [Call_create_valid_order self None resp; Call_get_order_details self] s)
      = inr ids' /\
    [PStr "ord-1"] `prefix_of` ids'.
Proof.
  apply (X9_order_ids_append_only _ (new_user 1 Cls.CombinedChaosUser)
           (State [] (<[Cls.order_ids_ResilienceTestUser := [PStr "ord-1"]]> initial_heap) [])).
  reflexivity.
Defined.

(** X10: once a cached list holds 100 identifiers it stays as it is over
    any run of calls: later creations, successful or not, are not
    remembered. *)
Theorem X10_order_ids_frozen_when_full (cs : list call) self s (ids : list pyval) :
  order_ids_of self s = inr ids ->
  length ids = 100%nat ->
  order_ids_of self (run_calls cs s) = inr ids.
Proof.
  destruct (resolve_order_ids self) as [l Hl].
  rewrite !(order_ids_of_resolved _ _ _ Hl). intros [= <-] Hfull. f_equal.
  destruct (run_calls_prefix cs s l) as [k Hk].
  pose proof (run_calls_bounded cs s l ltac:(lia)) as Hb.
  rewrite Hk, length_app in Hb.
  destruct k as [|v k]; [|cbn in Hb; lia].
  rewrite Hk. apply app_nil_r.
Qed.

Lemma X10_order_ids_frozen_witness :
  let self := new_user 1 Cls.OrderServiceUser in
  let resp := Response 200 (inr (PDict {["order_id" := PStr "ord-new"]})) in
  let s := State [] (<[Cls.order_ids_OrderServiceUser := replicate 100 (PStr "ord-old")]>
                       initial_heap) [] in
  order_ids_of self (run_calls [Call_create_order self resp; Call_create_order self resp] s)
  = inr (replicate 100 (PStr "ord-old")).
Proof.
  apply (X10_order_ids_frozen_when_full _ (new_user 1 Cls.OrderServiceUser)
           (State [] (<[Cls.order_ids_OrderServiceUser := replicate 100 (PStr "ord-old")]>
                        initial_heap) [])); reflexivity.
Defined.

(** X11: what one instance caches, another retrieves.  When an instance
    creates an order successfully while the list is empty, the next
    retrieval by any instance that shares the list asks for exactly the
    identifier of that order. *)
Theorem X11_created_order_is_the_one_retrieved
    (i1 i2 : nat) (c1 c2 : Cls.cls) (num_items : option Z) resp s
    (d : gmap string pyval) (order_id : pyval) :
  let u1 := new_user i1 c1 in
  let u2 := new_user i2 c2 in
  Cls.class_getattr c1 "order_ids" = Cls.class_getattr c2 "order_ids" ->
  sends_request num_items ->
  status_code resp = 200 ->
  json resp = inr (PDict d) ->
  d !! "order_id" = Some order_id ->
  truthy order_id = true ->
  order_ids_of u2 s = inr [] ->
  forall s',
    s' = snd (OrderServiceUser.create_order u1 resp s) \/
    s' = snd (ResilienceTestUser.create_valid_order u1 num_items resp s) ->
    events_since s' (snd (OrderServiceUser.get_order u2 s'))
      = [EGet [Lit "/order/"; Fmt order_id] "/order/:orderId"] /\
    events_since s' (snd (ResilienceTestUser.get_order_details u2 s'))
      = [EGet [Lit "/order/"; Fmt order_id] "/order/:orderId"].
Proof.
  intros u1 u2 Hsame Harg Hst Hj Hd Ht Hempty s' Hs'.
  change (ResilienceTestUser.get_order_details u2) with (OrderServiceUser.get_order u2).
  assert (Hids : order_ids_of u2 s' = inr [order_id]).
  { pose proof (resolve_new_user i1 c1) as Hl1.
    pose proof (resolve_new_user i2 c2) as Hl2.
    rewrite !class_getattr_order_ids in Hsame. injection Hsame as Hsame.
    rewrite <- Hsame in Hl2.
    set (l1 := match c1 with
               | Cls.OrderServiceUser => Cls.order_ids_OrderServiceUser
               | _ => Cls.order_ids_ResilienceTestUser
               end) in *.
    fold u1 in Hl1. fold u2 in Hl2.
    rewrite (order_ids_of_resolved _ _ _ Hl2) in Hempty.
    rewrite (order_ids_of_resolved _ _ _ Hl2).
    injection Hempty as Hempty.
    assert (Hheap : exists chaos, heap s' = fst (handled chaos l1 resp (heap s))).
    { destruct Hs' as [-> | ->].
      - destruct (create_order_run u1 resp s) as (sel & r & l & Hl & _ & _ & ->).
        exists false. cbn [snd heap]. rewrite Hl1 in Hl. injection Hl as <-. reflexivity.
      - destruct (create_valid_order_run u1 num_items resp s Harg)
          as (sel & r & l & Hl & _ & _ & ->).
        exists true. cbn [snd heap]. rewrite Hl1 in Hl. injection Hl as <-. reflexivity. }
    destruct Hheap as [chaos ->]. unfold handled.
    rewrite Hst, Hj. cbn [Z.eqb Pos.eqb Py.get]. rewrite Hd. cbn [from_option id].
    rewrite Ht, Hempty. cbn [length app andb].
    change (Z.of_nat 0 <? 100) with true. cbn [fst].
    rewrite lookup_total_insert_eq. reflexivity. }
  destruct (get_order_run u2 s') as (l & r & Hl & Hrun).
  rewrite (order_ids_of_resolved _ _ _ Hl) in Hids. injection Hids as Hids.
  destruct Hrun as [[Hnil _] | (v & Hin & ->)]; [congruence|].
  rewrite Hids in Hin. apply list_elem_of_singleton in Hin. subst v.
  cbn [snd]. split; apply events_since_app; reflexivity.
Qed.

Lemma X11_created_order_witness :
  let u1 := new_user 1 Cls.BulkheadUser in
  let u2 := new_user 2 Cls.NormalOperationUser in
  let resp := Response 200 (inr (PDict {["order_id" := PStr "ord-9"]})) in
  let s' := snd (ResilienceTestUser.create_valid_order u1 None resp (initial_state [])) in
  events_since s' (snd (OrderServiceUser.get_order u2 s'))
    = [EGet [Lit "/order/"; Fmt (PStr "ord-9")] "/order/:orderId"] /\
  events_since s' (snd (ResilienceTestUser.get_order_details u2 s'))
    = [EGet [Lit "/order/"; Fmt (PStr "ord-9")] "/order/:orderId"].
Proof.
  apply (X11_created_order_is_the_one_retrieved 1 2 Cls.BulkheadUser
           Cls.NormalOperationUser None
           (Response 200 (inr (PDict {["order_id" := PStr "ord-9"]})))
           (initial_state []) {["order_id" := PStr "ord-9"]} (PStr "ord-9"));
    first [exact I | reflexivity | right; reflexivity].
Defined.

End CacheOverRuns.

(** ** Monitoring and chaos control *)

Section Monitors.

Import Journal.

Implicit Types (self : user) (resp : response) (j : list entry).

(** X12: [check_circuit_status] decides nothing about a response that is
    not a 200: it issues the GET, sets no mark, logs nothing and returns. *)
Theorem X12_circuit_status_unmarked_unless_200 self resp j :
  status_code resp <> 200 ->
  Monitoring.check_circuit_status self resp j =
    (inr tt, j ++ [ClientGet "/order/circuit-status" "/order/circuit-status"]).
Proof.
  intros Hst. apply Z.eqb_neq in Hst.
  unfold Monitoring.check_circuit_status, bind, tell. rewrite Hst. reflexivity.
Qed.

Lemma X12_circuit_status_unmarked_witness :
  Monitoring.check_circuit_status (new_user 1 Cls.NormalOperationUser)
    (Response 503 (inl JSONDecodeError)) [] =
    (inr tt, [] ++ [ClientGet "/order/circuit-status" "/order/circuit-status"]).
Proof.
  apply (X12_circuit_status_unmarked_unless_200 (new_user 1 Cls.NormalOperationUser)
           (Response 503 (inl JSONDecodeError)) []).
  discriminate.
Defined.

Ltac run_status :=
  unfold Monitoring.check_circuit_status, bind, tell, try_except, lift, lift_exn,
    subscript, ret, raise;
  cbn.

(** X13: on a 200, [check_circuit_status] never raises.  When the body
    carries the state of both circuits it logs them in one INFO line and
    marks the response a success; in every other case (no JSON, not an
    object, a circuit or its state missing) it logs nothing and marks the
    response a failure, once. *)
Theorem X13_circuit_status_marks self resp j :
  status_code resp = 200 ->
  (forall inventory_state payment_state,
      reports_both_circuits resp inventory_state payment_state ->
      Monitoring.check_circuit_status self resp j =
        (inr tt,
         j ++ [ClientGet "/order/circuit-status" "/order/circuit-status";
               Log INFO [Text "Circuit Status - Inventory: "; Value inventory_state;
                         Text ", Payment: "; Value payment_state];
               Success])) /\
  ((forall inventory_state payment_state,
       ~ reports_both_circuits resp inventory_state payment_state) ->
   exists e,
     Monitoring.check_circuit_status self resp j =
       (inr tt,
        j ++ [ClientGet "/order/circuit-status" "/order/circuit-status";
              Failure [Text "Failed to parse circuit status: "; Exc e]])).
Proof.
  intros Hst. split.
  - intros si sp (d & i & p & Hj & Hi & Hsi & Hp & Hsp).
    run_status. rewrite Hst, Hj. cbn. rewrite Hi. cbn. rewrite Hsi. cbn.
    rewrite Hp. cbn. rewrite Hsp. cbn.
    rewrite <- !app_assoc. reflexivity.
  - intros Hnot. run_status. rewrite Hst. cbn.
    destruct (json resp) as [e|status] eqn:Hj; cbn;
      [eexists; rewrite <- app_assoc; reflexivity|].
    destruct status as [| | | | | |d]; cbn;
      try (eexists; rewrite <- app_assoc; reflexivity).
    destruct (d !! "inventory_circuit") as [inv|] eqn:Hi; cbn;
      [|eexists; rewrite <- app_assoc; reflexivity].
    destruct inv as [| | | | | |i]; cbn;
      try (eexists; rewrite <- app_assoc; reflexivity).
    destruct (i !! "state") as [si|] eqn:Hsi; cbn;
      [|eexists; rewrite <- app_assoc; reflexivity].
    destruct (d !! "payment_circuit") as [pay|] eqn:Hp; cbn;
      [|eexists; rewrite <- app_assoc; reflexivity].
    destruct pay as [| | | | | |p]; cbn;
      try (eexists; rewrite <- app_assoc; reflexivity).
    destruct (p !! "state") as [sp|] eqn:Hsp; cbn;
      [|eexists; rewrite <- app_assoc; reflexivity].
    exfalso. apply (Hnot si sp). exists d, i, p. repeat split; assumption.
Qed.

Lemma X13_circuit_status_marks_witness :
  let closed := PDict {["state" := PStr "CLOSED"]} in
  let open := PDict {["state" := PStr "OPEN"]} in
  let resp := Response 200
                (inr (PDict (<["inventory_circuit" := closed]>
                               {["payment_circuit" := open]}))) in
  Monitoring.check_circuit_status (new_user 1 Cls.CircuitBreakerPaymentUser) resp [] =
    (inr tt,
     [] ++ [ClientGet "/order/circuit-status" "/order/circuit-status";
            Log INFO [Text "Circuit Status - Inventory: "; Value (PStr "CLOSED");
                      Text ", Payment: "; Value (PStr "OPEN")];
            Success]).
Proof.
  apply (proj1 (X13_circuit_status_marks (new_user 1 Cls.CircuitBreakerPaymentUser)
                  (Response 200
                     (inr (PDict (<["inventory_circuit" := PDict {["state" := PStr "CLOSED"]}]>
                                    {["payment_circuit" := PDict {["state" := PStr "OPEN"]}]}))))
                  [] eq_refl)).
  eexists _, _, _. repeat split.
Defined.

End Monitors.

Section Chaos.

Import Journal.

Implicit Types (j : list entry) (r : ChaosController.reply).

Lemma switch_run (url done failed : string) r j :
  ChaosController.switch url done failed r j =
    (inr tt,
     j ++ [RequestsPost url 5;
           match r with
           | ChaosController.NoReply e => Log ERROR [Text failed; Exc e]
           | ChaosController.Reply resp =>
               match json resp with
               | inl e => Log ERROR [Text failed; Exc (Raised e)]
               | inr body => Log INFO [Text done; Value body]
               end
           end]).
Proof.
  unfold ChaosController.switch, ChaosController.requests_post, try_except, bind,
    tell, lift_exn, ret, raise.
  destruct r as [e|resp]; cbn; [rewrite <- app_assoc; reflexivity|].
  destruct (json resp) as [e|body]; cbn; rewrite <- app_assoc; reflexivity.
Qed.

(** X14: each of the six switches of [ChaosController] posts once, to its
    own endpoint with a 5 second timeout, never raises, and logs exactly one
    line: at INFO when a reply with a JSON body came back, whatever its
    status code, and at ERROR otherwise. *)
Theorem X14_switch_posts_once_and_logs_once :
  Forall (fun us : string * (ChaosController.reply -> W unit) =>
    forall r j,
      fst (snd us r j) = inr tt /\
      exists lvl msg,
        snd (snd us r j) = j ++ [RequestsPost (fst us) 5; Log lvl msg] /\
        (lvl = INFO <->
         exists status body, r = ChaosController.Reply (Response status (inr body))))
    ChaosController.switches.
Proof.
  assert (H : forall url done failed r j,
    fst (ChaosController.switch url done failed r j) = inr tt /\
    exists lvl msg,
      snd (ChaosController.switch url done failed r j)
        = j ++ [RequestsPost url 5; Log lvl msg] /\
      (lvl = INFO <->
       exists status body, r = ChaosController.Reply (Response status (inr body)))).
  { intros url done failed r j. rewrite switch_run. cbn [fst snd].
    split; [reflexivity|].
    destruct r as [e|[status [e|body]]]; cbn [json]; eexists _, _;
      (split; [reflexivity|]); split; try discriminate; eauto.
    - intros (st & b & [=]).
    - intros (st & b & [=]). }
  unfold ChaosController.switches.
  repeat (apply List.Forall_cons; [intros r j; apply H|]). apply List.Forall_nil.
Qed.

(** X15: [disable_all_chaos] never raises and always posts to the two
    disable endpoints, inventory first: a failure of the first request
    does not keep the second from being sent.  Its closing line is logged
    whether or not the requests succeeded. *)
Theorem X15_disable_all_chaos_posts_both r1 r2 j :
  exists lvl1 msg1 lvl2 msg2,
    ChaosController.disable_all_chaos r1 r2 j =
      (inr tt,
       j ++ [Log INFO [Text "ðŸ”„ Disabling all chaos modes..."];
             RequestsPost "http://localhost:8081/chaos/inventory/disable" 5;
             Log lvl1 msg1;
             RequestsPost "http://localhost:8082/chaos/payment/disable" 5;
             Log lvl2 msg2;
             Log INFO [Text "âœ… All chaos modes disabled"]]).
Proof.
  unfold ChaosController.disable_all_chaos, ChaosController.disable_inventory_chaos,
    ChaosController.disable_payment_chaos.
  unfold bind at 1. unfold tell at 1.
  unfold bind at 1. rewrite switch_run.
  unfold bind at 1. rewrite switch_run.
  unfold tell. rewrite <- !app_assoc. cbn [app].
  destruct r1 as [e1|[st1 [e1|b1]]], r2 as [e2|[st2 [e2|b2]]]; cbn [json];
    eexists _, _, _, _; reflexivity.
Qed.

(** X16: [enable_combined_chaos] never raises and always posts to the four
    endpoints in the order inventory enable, inventory slow, payment
    enable, payment slow, whatever the earlier requests came to. *)
Theorem X16_enable_combined_chaos_posts_all_four r1 r2 r3 r4 j :
  fst (ChaosController.enable_combined_chaos r1 r2 r3 r4 j) = inr tt /\
  urls_posted (drop (length j)
                 (snd (ChaosController.enable_combined_chaos r1 r2 r3 r4 j))) =
    [ "http://localhost:8081/chaos/inventory/enable";
      "http://localhost:8081/chaos/inventory/slow";
      "http://localhost:8082/chaos/payment/enable";
      "http://localhost:8082/chaos/payment/slow" ] /\
  last (snd (ChaosController.enable_combined_chaos r1 r2 r3 r4 j)) =
    Some (Log INFO [Text "âœ… Combined chaos enabled"]).
Proof.
  assert (Hrun : exists lvl1 msg1 lvl2 msg2 lvl3 msg3 lvl4 msg4,
    ChaosController.enable_combined_chaos r1 r2 r3 r4 j =
      (inr tt,
       j ++ [Log INFO [Text "ðŸ”„ Enabling combined chaos..."];
             RequestsPost "http://localhost:8081/chaos/inventory/enable" 5;
             Log lvl1 msg1;
             RequestsPost "http://localhost:8081/chaos/inventory/slow" 5;
             Log lvl2 msg2;
             RequestsPost "http://localhost:8082/chaos/payment/enable" 5;
             Log lvl3 msg3;
             RequestsPost "http://localhost:8082/chaos/payment/slow" 5;
             Log lvl4 msg4;
             Log INFO [Text "âœ… Combined chaos enabled"]])).
  { unfold ChaosController.enable_combined_chaos,
      ChaosController.enable_inventory_chaos, ChaosController.enable_inventory_slow,
      ChaosController.enable_payment_chaos, ChaosController.enable_payment_slow.
    unfold bind at 1. unfold tell at 1.
    unfold bind at 1. rewrite switch_run.
    unfold bind at 1. rewrite switch_run.
    unfold bind at 1. rewrite switch_run.
    unfold bind at 1. rewrite switch_run.
    unfold tell. rewrite <- !app_assoc. cbn [app].
    destruct r1 as [e1|[st1 [e1|b1]]], r2 as [e2|[st2 [e2|b2]]],
      r3 as [e3|[st3 [e3|b3]]], r4 as [e4|[st4 [e4|b4]]]; cbn [json];
      eexists _, _, _, _, _, _, _, _; reflexivity. }
  destruct Hrun as (lvl1 & msg1 & lvl2 & msg2 & lvl3 & msg3 & lvl4 & msg4 & ->).
  cbn [fst snd]. split; [reflexivity|]. split.
  - rewrite drop_app_length. reflexivity.
  - rewrite last_app. reflexivity.
Qed.

End Chaos.
